(** * temp-forecast: recurrent rollout, block extraction and the training loop

    A shallow embedding of [script/recurrent_prediction.py] and
    [script/training.py].  Tensors are modelled by their shape and contents,
    Python exceptions by an error monad, the opaque collaborators (the model,
    [unscale_temperature], the optimizer, the scheduler and the Optuna trial)
    by section variables. *)

From Stdlib Require Import List ZArith Lia Bool Arith Floats.
Import ListNotations.

Set Implicit Arguments.

(** ** Exceptions *)

(** The exceptions the two scripts can raise or let through. *)
Inductive exn : Type :=
| IndexError          (* Python / torch: index out of range *)
| RuntimeError        (* torch.cat: sizes of tensors must match except in dimension 0 *)
| ZeroDivisionError   (* Python: division or modulo by zero *)
| TrialPruned         (* optuna.exceptions.TrialPruned *)
| OverflowError.      (* torch: a Python int index that does not fit int64 *)

Inductive result (A : Type) : Type :=
| Ok (a : A)
| Raise (e : exn).

Arguments Ok {A} a.
Arguments Raise {A} e.

Definition bind {A B : Type} (r : result A) (k : A -> result B) : result B :=
  match r with
  | Ok a => k a
  | Raise e => Raise e
  end.

Declare Scope py_scope.
Delimit Scope py_scope with py.
Notation "x <- c ;; k" := (bind c (fun x => k))
  (at level 61, c at next level, right associativity) : py_scope.
Notation "' p <- c ;; k" := (bind c (fun p => k))
  (at level 61, p pattern, c at next level, right associativity) : py_scope.
Open Scope py_scope.

(** ** Tensors *)

Section Tensor.
Variable elt : Type.

(** A 1-D tensor. *)
Definition vec : Type := list elt.

(** A 2-D tensor of shape [(length (rows m), ncols m)].  The width is kept
    apart from the rows because a tensor with no row still has one. *)
Record matrix : Type := Matrix { ncols : nat; rows : list vec }.

Definition nrows (m : matrix) : nat := length (rows m).

(** Every row has the declared width. *)
Definition wf_matrix (m : matrix) : Prop :=
  Forall (fun r => length r = ncols m) (rows m).

(** [m] is a well-formed tensor of shape [(L, W)]. *)
Definition shaped (L W : nat) (m : matrix) : Prop :=
  ncols m = W /\ nrows m = L /\ wf_matrix m.

(** [v[-2:]]: a slice clamps at the start of the tensor. *)
Definition last2 (v : vec) : vec := skipn (length v - 2) v.

(** [x[-1, -2:]]: index [-1] is out of bounds when [x] has no row. *)
Definition last_row_last2 (x : matrix) : result vec :=
  match rows x with
  | [] => Raise IndexError
  | r :: rs => Ok (last2 (last rs r))
  end.

(** [torch.cat((a, b))] on 1-D tensors. *)
Definition cat1 (a b : vec) : vec := a ++ b.

(** [v.unsqueeze(dim=0)] on a 1-D tensor. *)
Definition unsqueeze0 (v : vec) : matrix := Matrix (length v) [v].

(** [m[1:, :]]. *)
Definition drop_first_row (m : matrix) : matrix := Matrix (ncols m) (tl (rows m)).

(** [torch.cat((a, b), axis=0)] on 2-D tensors: the sizes must agree in
    dimension 1. *)
Definition cat_rows (a b : matrix) : result matrix :=
  if ncols a =? ncols b then Ok (Matrix (ncols a) (rows a ++ rows b))
  else Raise RuntimeError.

(** A Python integer that torch can unpack into a 64-bit index. *)
Definition fits_int64 (k : Z) : bool :=
  ((- 2 ^ 63 <=? k) && (k <? 2 ^ 63))%Z.

(** The exception of an index [k] outside a tensor: torch fails on
    unpacking an integer that does not fit 64 bits, before any bound is
    looked at. *)
Definition index_error (k : Z) : exn :=
  if fits_int64 k then IndexError else OverflowError.

(** [v[k]] for a Python integer [k]: a negative index counts from the end.
    A tensor has fewer than [2^63] elements, so an index inside it always
    fits 64 bits and the order of the two tests cannot be observed. *)
Definition index1 (v : vec) (k : Z) : result elt :=
  let n := Z.of_nat (length v) in
  let k' := if (k <? 0)%Z then (k + n)%Z else k in
  if ((0 <=? k') && (k' <? n))%Z then
    match nth_error v (Z.to_nat k') with
    | Some a => Ok a
    | None => Raise (index_error k)
    end
  else Raise (index_error k).

(** [l[i]] on a Python list, for an index taken from [range(len(...))]. *)
Definition list_getitem {A : Type} (l : list A) (i : nat) : result A :=
  match nth_error l i with
  | Some a => Ok a
  | None => Raise IndexError
  end.

(** Modelled from the spec: the Windowed Sequence Source (the class
    [Heat_Sequence_Dataset] of module [dataset], which is not among the
    sources).  It has a length [N] and gives a pair (window, target) for every
    index [0 <= i < N]; as a Python sequence it raises [IndexError] outside. *)
Definition dataset : Type := list (matrix * vec).

Definition dataset_getitem (d : dataset) (i : nat) : result (matrix * vec) :=
  list_getitem d i.
End Tensor.

Arguments Matrix {elt} ncols rows.
Arguments list_getitem {A} l i.

(** The position [v[b - 1]] reads in a vector of length [B], when there is
    one: [b - 1] for [1 <= b <= B], and [B + b - 1], counted from the end,
    for [1 - B <= b <= 0]. *)
Definition selected_block (B : nat) (b : Z) : option nat :=
  if ((1 <=? b) && (b <=? Z.of_nat B))%Z then Some (Z.to_nat (b - 1))
  else if ((1 - Z.of_nat B <=? b) && (b <=? 0))%Z
       then Some (Z.to_nat (Z.of_nat B + b - 1))
       else None.

(** ** script/recurrent_prediction.py *)

Section Recurrent.
Variable elt : Type.

(** The model on one window: [model(seq.unsqueeze(dim=0)).squeeze(dim=0)],
    a batch of one window in and its one prediction vector out. *)
Variable model : matrix elt -> vec elt.

(** [dataset.unscale_temperature], not among the sources. *)
Variable unscale_temperature : vec elt -> vec elt.

(** The variables the loop of [get_true_pred_recurrent] carries. *)
Record loop_state : Type := LoopState {
  st_seq : matrix elt;
  st_prediction : vec elt;
  st_y_true : list (vec elt);
  st_y_pred : list (vec elt)
}.

(** Lines 29-37: the state on entering the loop. *)
Definition loop_init (item0 : matrix elt * vec elt) : loop_state :=
  let '(seq, y) := item0 in
  let y_true := [] ++ [unscale_temperature y] in
  let prediction := model seq in
  let y_pred := [] ++ [unscale_temperature prediction] in
  LoopState seq prediction y_true y_pred.

(** Lines 44-52: the rest of an iteration once [test_dataset[i]] is read. *)
Definition loop_step (st : loop_state) (item : matrix elt * vec elt)
  : result loop_state :=
  let '(x, y) := item in
  let y_true := st_y_true st ++ [unscale_temperature y] in
  x <- last_row_last2 x ;;
  let new_row := unsqueeze0 (cat1 (st_prediction st) x) in
  seq <- cat_rows (drop_first_row (st_seq st)) new_row ;;
  let prediction := model seq in
  let y_pred := st_y_pred st ++ [unscale_temperature prediction] in
  Ok (LoopState seq prediction y_true y_pred).

(** Lines 41-52: one iteration of the loop, at index [i]. *)
Definition loop_body (test_dataset : dataset elt) (st : loop_state) (i : nat)
  : result loop_state :=
  item <- dataset_getitem test_dataset i ;;
  loop_step st item.

(** [for i in idx: body]. *)
Fixpoint for_each (test_dataset : dataset elt) (idx : list nat) (st : loop_state)
  : result loop_state :=
  match idx with
  | [] => Ok st
  | i :: idx' =>
      st' <- loop_body test_dataset st i ;;
      for_each test_dataset idx' st'
  end.

(** The same iterations over the items themselves, without the indices. *)
Fixpoint run_items (items : list (matrix elt * vec elt)) (st : loop_state)
  : result loop_state :=
  match items with
  | [] => Ok st
  | item :: items' =>
      st' <- loop_step st item ;;
      run_items items' st'
  end.

(** The loop state after the first [k] iterations, that is after the steps
    [1 .. k] of the rollout. *)
Definition rollout_state (test_dataset : dataset elt) (k : nat) : result loop_state :=
  item0 <- dataset_getitem test_dataset 0 ;;
  for_each test_dataset (seq 1 k) (loop_init item0).

(** [get_true_pred_recurrent(model, test_dataset)]; [range(1, len(test_dataset))]
    is [seq 1 (length test_dataset - 1)]. *)
Definition get_true_pred_recurrent (test_dataset : dataset elt)
  : result (list (vec elt) * list (vec elt)) :=
  item0 <- dataset_getitem test_dataset 0 ;;
  st <- for_each test_dataset (seq 1 (length test_dataset - 1)) (loop_init item0) ;;
  Ok (st_y_true st, st_y_pred st).

(** Lines 83-85: the loop of [get_block_temperature_recurrent] over the two
    lists the rollout returned. *)
Fixpoint extract_loop (y_true y_pred : list (vec elt)) (block_number : Z)
         (idx : list nat) (acc : list elt * list elt)
  : result (list elt * list elt) :=
  match idx with
  | [] => Ok acc
  | i :: idx' =>
      t <- list_getitem y_true i ;;
      t <- index1 t (block_number - 1) ;;
      let y_block_true := fst acc ++ [t] in
      p <- list_getitem y_pred i ;;
      p <- index1 p (block_number - 1) ;;
      let y_block_pred := snd acc ++ [p] in
      extract_loop y_true y_pred block_number idx' (y_block_true, y_block_pred)
  end.

Definition extract_block (res : list (vec elt) * list (vec elt)) (block_number : Z)
  : result (list elt * list elt) :=
  let '(y_true, y_pred) := res in
  extract_loop y_true y_pred block_number (seq 0 (length y_true)) ([], []).

(** [get_block_temperature_recurrent(model, test_dataset, block_number)]. *)
Definition get_block_temperature_recurrent (test_dataset : dataset elt)
           (block_number : Z) : result (list elt * list elt) :=
  res <- get_true_pred_recurrent test_dataset ;;
  extract_block res block_number.

(** *** The rollout as section 4.1 of the specification words it *)

(** The exogenous columns of a source window: the last 2 columns of its
    final row. *)
Definition exogenous (x : matrix elt) : vec elt := last2 (last (rows x) []).

(** Drop the oldest row, append the new one. *)
Definition slide (w : matrix elt) (new_row : vec elt) : matrix elt :=
  Matrix (ncols w) (tl (rows w) ++ [new_row]).

(** The state one successful iteration leads to: the window slid over the
    carried prediction and the exogenous columns of [x]. *)
Definition next_state (st : loop_state) (x : matrix elt) (y : vec elt)
  : loop_state :=
  let w := slide (st_seq st) (st_prediction st ++ exogenous x) in
  LoopState w (model w) (st_y_true st ++ [unscale_temperature y])
            (st_y_pred st ++ [unscale_temperature (model w)]).

(** The windows fed to the Predictor, step by step: the source's own window
    at step 0, then the maintained window slid over the previous prediction
    and the exogenous columns of the source's next window. *)
Fixpoint spec_windows (w : matrix elt) (rest : list (matrix elt * vec elt))
  : list (matrix elt) :=
  w :: match rest with
       | [] => []
       | (x, _) :: rest' => spec_windows (slide w (model w ++ exogenous x)) rest'
       end.

(** The Result Sequence: the unscaled targets and the unscaled predictions. *)
Definition spec_rollout (w0 : matrix elt) (t0 : vec elt)
           (rest : list (matrix elt * vec elt))
  : list (vec elt) * list (vec elt) :=
  (map (fun it => unscale_temperature (snd it)) ((w0, t0) :: rest),
   map (fun w => unscale_temperature (model w)) (spec_windows w0 rest)).

(** The data-model conditions of the specification: every window of the
    source is an [L] x [W] tensor, and the Predictor answers such a window
    with one value per prediction column. *)
Definition source_ok (L W : nat) (d : dataset elt) : Prop :=
  Forall (fun it => shaped L W (fst it)) d.

Definition predictor_ok (L W : nat) : Prop :=
  forall w, shaped L W w -> length (model w) + 2 = W.

End Recurrent.

(** ** script/training.py *)

(** A Python [float] is a binary64 number. *)
Definition pyfloat : Type := float.

(** [float(n)] for a count [n] (a batch size, a dataset length); exact below
    [2^53], and these counts are far below. *)
Definition float_of_nat (n : nat) : pyfloat :=
  PrimFloat.of_uint63 (Uint63.of_Z (Z.of_nat n)).

(** What the loop does to its collaborators, in order. *)
Inductive event : Type :=
| SchedulerStep (metric : pyfloat)                    (* scheduler.step(metric) *)
| TrialReport (value : pyfloat) (epoch : Z)           (* trial.report(value, epoch) *)
| TrialShouldPrune (answer : bool)                    (* trial.should_prune() *)
| PlotLosses (train_losses val_losses : list pyfloat) (* plot_losses(...) *)
| Print (epoch : Z) (train_loss val_loss : pyfloat).  (* print(...) *)

Section Training.
(** One [(x, y)] of a loader, and [x.shape[0]]. *)
Variable batch : Type.
Variable batch_size : batch -> nat.

(** The parameters of the model together with the state of the optimizer. *)
Variable net : Type.

(** Lines 85-91 and [loss.item()]: one optimizer step on a batch. *)
Variable train_batch : net -> batch -> net * pyfloat.

(** Lines 37-39 and [loss.item()]: the loss on a batch under [no_grad], the
    model in evaluation mode. *)
Variable eval_batch : net -> batch -> pyfloat.

(** The scheduler; its step may change the optimizer. *)
Variable scheduler : Type.
Variable scheduler_step : scheduler -> net -> pyfloat -> scheduler * net.

(** The Optuna trial. *)
Variable trial : Type.
Variable trial_report : trial -> pyfloat -> Z -> trial.
Variable trial_should_prune : trial -> bool * trial.

(** A [DataLoader]: its batches in order, and [len(loader.dataset)]. *)
Record loader : Type := Loader { batches : list batch; dataset_len : nat }.

(** The arguments of [train] that are plain data. *)
Record config : Type := Config {
  train_loader : loader;
  val_loader : loader;
  num_epochs : Z;
  epoch_freq : Z;
  plot_progress : bool;
  print_progress : bool
}.

(** The objects [train] works on, with the log of the calls made so far. *)
Record train_state : Type := TrainState {
  ts_net : net;
  ts_scheduler : option scheduler;
  ts_trial : option trial;
  train_losses : list pyfloat;
  val_losses : list pyfloat;
  ts_log : list event
}.

(** A computation either returns a value or raises, and leaves a state
    behind in both cases. *)
Inductive run (A : Type) : Type :=
| Returned (a : A) (st : train_state)
| Raised (e : exn) (st : train_state).

Arguments Returned {A} a st.
Arguments Raised {A} e st.

Definition prog (A : Type) : Type := train_state -> run A.

Definition ret {A : Type} (a : A) : prog A := fun st => Returned a st.

Definition raise {A : Type} (e : exn) : prog A := fun st => Raised e st.

Definition then_ {A B : Type} (c : prog A) (k : A -> prog B) : prog B :=
  fun st =>
    match c st with
    | Returned a st' => k a st'
    | Raised e st' => Raised e st'
    end.

Notation "x <-- c ;;; k" := (then_ c (fun x => k))
  (at level 61, c at next level, right associativity).
Notation "c ;;; k" := (then_ c (fun _ => k))
  (at level 61, right associativity).

Definition final_state {A : Type} (r : run A) : train_state :=
  match r with
  | Returned _ st => st
  | Raised _ st => st
  end.

Definition emit (ev : event) : prog unit :=
  fun st =>
    Returned tt (TrainState (ts_net st) (ts_scheduler st) (ts_trial st)
                            (train_losses st) (val_losses st) (ts_log st ++ [ev])).

(** [a / n] with [n] an [int]. *)
Definition truediv (a : pyfloat) (n : nat) : prog pyfloat :=
  if n =? 0 then raise ZeroDivisionError else ret (a / float_of_nat n)%float.

(** [calculate_test_loss(model, criterion, test_loader)].  [test_loss]
    starts as the [int] 0, which adds as 0.0. *)
Definition calculate_test_loss (m : net) (test_loader : loader) : pyfloat :=
  fold_left
    (fun test_loss b => (test_loss + eval_batch m b * float_of_nat (batch_size b))%float)
    (batches test_loader) 0%float.

(** Lines 79-93: the training phase of one epoch. *)
Definition training_pass (m : net) (l : loader) : net * pyfloat :=
  fold_left
    (fun acc b =>
       let '(m', loss) := train_batch (fst acc) b in
       (m', (snd acc + loss * float_of_nat (batch_size b))%float))
    (batches l) (m, 0%float).

Definition training_phase (cfg : config) : prog pyfloat :=
  fun st =>
    let '(m, train_loss) := training_pass (ts_net st) (train_loader cfg) in
    Returned train_loss
      (TrainState m (ts_scheduler st) (ts_trial st)
                  (train_losses st) (val_losses st) (ts_log st)).

(** [train_losses += [train_loss]]. *)
Definition append_train_loss (train_loss : pyfloat) : prog unit :=
  fun st =>
    Returned tt (TrainState (ts_net st) (ts_scheduler st) (ts_trial st)
                            (train_losses st ++ [train_loss]) (val_losses st)
                            (ts_log st)).

(** [val_losses += [val_loss]]. *)
Definition append_val_loss (val_loss : pyfloat) : prog unit :=
  fun st =>
    Returned tt (TrainState (ts_net st) (ts_scheduler st) (ts_trial st)
                            (train_losses st) (val_losses st ++ [val_loss])
                            (ts_log st)).

(** Line 99. *)
Definition validation_phase (cfg : config) : prog pyfloat :=
  fun st => Returned (calculate_test_loss (ts_net st) (val_loader cfg)) st.

(** Lines 101-102. *)
Definition scheduler_hook (val_loss : pyfloat) : prog unit :=
  fun st =>
    match ts_scheduler st with
    | None => Returned tt st
    | Some s =>
        let '(s', m) := scheduler_step s (ts_net st) val_loss in
        emit (SchedulerStep val_loss)
             (TrainState m (Some s') (ts_trial st)
                         (train_losses st) (val_losses st) (ts_log st))
    end.

(** Lines 107-112. *)
Definition trial_hook (val_loss : pyfloat) (epoch : Z) : prog unit :=
  fun st =>
    match ts_trial st with
    | None => Returned tt st
    | Some t =>
        let t1 := trial_report t val_loss epoch in
        let '(answer, t2) := trial_should_prune t1 in
        let st' := TrainState (ts_net st) (ts_scheduler st) (Some t2)
                              (train_losses st) (val_losses st)
                              (ts_log st ++ [TrialReport val_loss epoch;
                                             TrialShouldPrune answer]) in
        if answer then Raised TrialPruned st' else Returned tt st'
    end.

(** Lines 114-118; [epoch % epoch_freq] raises when [epoch_freq] is 0. *)
Definition periodic_report (cfg : config) (epoch : Z) (train_loss val_loss : pyfloat)
  : prog unit :=
  if (epoch_freq cfg =? 0)%Z then raise ZeroDivisionError
  else if (epoch mod epoch_freq cfg =? 0)%Z then
    (if plot_progress cfg
     then (fun st => emit (PlotLosses (train_losses st) (val_losses st)) st)
     else ret tt) ;;;
    (if print_progress cfg then emit (Print epoch train_loss val_loss) else ret tt)
  else ret tt.

(** Lines 79-118: the body of the loop over the epochs. *)
Definition epoch_body (cfg : config) (epoch : Z) : prog unit :=
  train_loss <-- training_phase cfg ;;;
  train_loss <-- truediv train_loss (dataset_len (train_loader cfg)) ;;;
  append_train_loss train_loss ;;;
  val_loss <-- validation_phase cfg ;;;
  scheduler_hook val_loss ;;;
  val_loss <-- truediv val_loss (dataset_len (val_loader cfg)) ;;;
  append_val_loss val_loss ;;;
  trial_hook val_loss epoch ;;;
  periodic_report cfg epoch train_loss val_loss.

(** [for epoch in epochs: body]. *)
Fixpoint for_epochs (cfg : config) (epochs : list Z) : prog unit :=
  match epochs with
  | [] => ret tt
  | epoch :: epochs' => epoch_body cfg epoch ;;; for_epochs cfg epochs'
  end.

(** [range(1, num_epochs + 1)]. *)
Definition epoch_range (n : Z) : list Z := map Z.of_nat (seq 1 (Z.to_nat n)).

(** [train(model, criterion, optimizer, scheduler, train_loader, val_loader,
    num_epochs, epoch_freq, plot_progress, print_progress, trial)]. *)
Definition train (cfg : config) (m : net) (s : option scheduler) (t : option trial)
  : run unit :=
  for_epochs cfg (epoch_range (num_epochs cfg)) (TrainState m s t [] [] []).

(** The accumulated validation loss of an epoch started in [st], before the
    division, and the mean it is divided into. *)
Definition epoch_val_total (cfg : config) (st : train_state) : pyfloat :=
  calculate_test_loss (fst (training_pass (ts_net st) (train_loader cfg)))
                      (val_loader cfg).

Definition epoch_val_mean (cfg : config) (st : train_state) : pyfloat :=
  (epoch_val_total cfg st / float_of_nat (dataset_len (val_loader cfg)))%float.

(** The metrics the scheduler was stepped with, and the reports the trial
    received, as the log has them. *)
Definition scheduler_metrics (log : list event) : list pyfloat :=
  flat_map (fun ev => match ev with SchedulerStep v => [v] | _ => [] end) log.

Definition trial_reports (log : list event) : list (pyfloat * Z) :=
  flat_map (fun ev => match ev with TrialReport v e => [(v, e)] | _ => [] end) log.

End Training.

Arguments Returned {net scheduler trial A} a st.
Arguments Raised {net scheduler trial A} e st.

(** * Properties of the rollout and of the block extractor *)

Unset Implicit Arguments.

Section RecurrentFacts.
Variable elt : Type.
Variable model : matrix elt -> vec elt.
Variable unscale_temperature : vec elt -> vec elt.

Local Abbreviation loop_step := (loop_step model unscale_temperature).
Local Abbreviation loop_init := (loop_init model unscale_temperature).
Local Abbreviation next_state := (next_state model unscale_temperature).
Local Abbreviation loop_body := (loop_body model unscale_temperature).
Local Abbreviation for_each := (for_each model unscale_temperature).
Local Abbreviation run_items := (run_items model unscale_temperature).
Local Abbreviation rollout_state := (rollout_state model unscale_temperature).
Local Abbreviation get_true_pred_recurrent :=
  (get_true_pred_recurrent model unscale_temperature).
Local Abbreviation spec_windows := (spec_windows model).
Local Abbreviation spec_rollout := (spec_rollout model unscale_temperature).
Local Abbreviation predictor_ok := (predictor_ok model).

(** *** The loop over indices is the loop over the items *)

Lemma for_each_app (d : dataset elt) (a b : list nat) (st : loop_state elt) :
  for_each d (a ++ b) st = (st' <- for_each d a st ;; for_each d b st').
Proof.
  revert st; induction a as [|i a IH]; intros st; simpl; [reflexivity|].
  destruct (loop_body d st i) as [st'|e]; simpl; [apply IH | reflexivity].
Qed.

Lemma run_items_app (a b : list (matrix elt * vec elt)) (st : loop_state elt) :
  run_items (a ++ b) st = (st' <- run_items a st ;; run_items b st').
Proof.
  revert st; induction a as [|it a IH]; intros st; simpl; [reflexivity|].
  destruct (loop_step st it) as [st'|e]; simpl; [apply IH | reflexivity].
Qed.

Lemma skipn_nth_error {A : Type} (l : list A) (a : nat) (x : A) :
  nth_error l a = Some x -> skipn a l = x :: skipn (S a) l.
Proof.
  revert a; induction l as [|y l IH]; intros [|a] H; simpl in *; try discriminate.
  - congruence.
  - apply IH, H.
Qed.

Lemma for_each_items (d : dataset elt) (k a : nat) (st : loop_state elt) :
  a + k <= length d ->
  for_each d (seq a k) st = run_items (firstn k (skipn a d)) st.
Proof.
  revert a st; induction k as [|k IH]; intros a st Hle; simpl; [reflexivity|].
  unfold loop_body, dataset_getitem, list_getitem.
  destruct (nth_error d a) as [it|] eqn:Hn.
  - rewrite (skipn_nth_error _ _ _ Hn); simpl.
    destruct (loop_step st it) as [st'|e]; simpl; [|reflexivity].
    apply IH; lia.
  - apply nth_error_None in Hn; lia.
Qed.

Lemma rollout_state_items (w0 : matrix elt) (t0 : vec elt)
      (rest : list (matrix elt * vec elt)) (k : nat) :
  k <= length rest ->
  rollout_state ((w0, t0) :: rest) k = run_items (firstn k rest) (loop_init (w0, t0)).
Proof.
  intros Hk; unfold rollout_state; simpl.
  rewrite for_each_items by (simpl; lia); reflexivity.
Qed.

Lemma get_true_pred_recurrent_items (w0 : matrix elt) (t0 : vec elt)
      (rest : list (matrix elt * vec elt)) :
  get_true_pred_recurrent ((w0, t0) :: rest) =
  (st <- run_items rest (loop_init (w0, t0)) ;; Ok (st_y_true st, st_y_pred st)).
Proof.
  unfold get_true_pred_recurrent; simpl.
  rewrite Nat.sub_0_r, for_each_items by (simpl; lia); simpl.
  rewrite firstn_all; reflexivity.
Qed.

Lemma rollout_state_succ (d : dataset elt) (k : nat) :
  rollout_state d (S k) = (st <- rollout_state d k ;; loop_body d st (S k)).
Proof.
  unfold rollout_state.
  destruct (dataset_getitem d 0) as [it|e]; cbn [bind]; [|reflexivity].
  rewrite seq_S, for_each_app.
  destruct (for_each d (seq 1 k) (loop_init it)) as [st|e]; cbn [bind]; [|reflexivity].
  cbn [for_each Nat.add]. destruct (loop_body d st (S k)); reflexivity.
Qed.

Lemma rollout_state_raise (d : dataset elt) (k n : nat) (e : exn) :
  rollout_state d k = Raise e -> k <= n -> rollout_state d n = Raise e.
Proof.
  intros Hk Hle; induction Hle as [|n Hle IH]; [assumption|].
  rewrite rollout_state_succ, IH; reflexivity.
Qed.

Lemma get_true_pred_recurrent_state (d : dataset elt) :
  get_true_pred_recurrent d =
  (st <- rollout_state d (length d - 1) ;; Ok (st_y_true st, st_y_pred st)).
Proof.
  unfold get_true_pred_recurrent, rollout_state.
  destruct (dataset_getitem d 0); reflexivity.
Qed.

(** *** One iteration *)

Lemma last_cons_default {A : Type} (r : A) (rs : list A) (d : A) :
  last (r :: rs) d = last rs r.
Proof.
  revert r d; induction rs as [|r' rs IH]; intros r d; [reflexivity|].
  change (last (r :: r' :: rs) d) with (last (r' :: rs) d).
  rewrite (IH r' d), (IH r' r); reflexivity.
Qed.

Lemma last_row_last2_exogenous (x : matrix elt) :
  rows x <> [] -> last_row_last2 x = Ok (exogenous x).
Proof.
  unfold last_row_last2, exogenous; destruct (rows x) as [|r rs]; [congruence|].
  intros _; rewrite last_cons_default; reflexivity.
Qed.

Lemma length_last2 (v : vec elt) : length (last2 v) = Nat.min 2 (length v).
Proof. unfold last2; rewrite length_skipn; lia. Qed.

Lemma loop_step_no_row st x y :
  rows x = [] -> loop_step st (x, y) = Raise IndexError.
Proof. intros H; unfold loop_step, last_row_last2; rewrite H; reflexivity. Qed.

Lemma loop_step_fits st x y :
  rows x <> [] ->
  length (st_prediction st) + length (exogenous x) = ncols (st_seq st) ->
  loop_step st (x, y) = Ok (next_state st x y).
Proof.
  intros Hx Hw; unfold loop_step.
  rewrite (last_row_last2_exogenous x Hx); cbn [bind].
  unfold cat_rows, drop_first_row, unsqueeze0, cat1; cbn [ncols rows].
  rewrite length_app, Hw, Nat.eqb_refl; reflexivity.
Qed.

Lemma loop_step_mismatch st x y :
  rows x <> [] ->
  length (st_prediction st) + length (exogenous x) <> ncols (st_seq st) ->
  loop_step st (x, y) = Raise RuntimeError.
Proof.
  intros Hx Hw; unfold loop_step.
  rewrite (last_row_last2_exogenous x Hx); cbn [bind].
  unfold cat_rows, drop_first_row, unsqueeze0, cat1; cbn [ncols rows].
  rewrite length_app.
  destruct (Nat.eqb_spec (ncols (st_seq st))
                         (length (st_prediction st) + length (exogenous x)));
    [congruence | reflexivity].
Qed.

Lemma loop_step_inv st x y st' :
  loop_step st (x, y) = Ok st' ->
  rows x <> [] /\
  length (st_prediction st) + length (exogenous x) = ncols (st_seq st) /\
  st' = next_state st x y.
Proof.
  intros H.
  destruct (rows x) as [|r rs] eqn:Hx.
  - rewrite loop_step_no_row in H by assumption; discriminate.
  - assert (Hne : rows x <> []) by (rewrite Hx; discriminate).
    destruct (Nat.eq_dec (length (st_prediction st) + length (exogenous x))
                         (ncols (st_seq st))) as [Hw|Hw].
    + rewrite (loop_step_fits st x y Hne Hw) in H; inversion H.
      repeat split; [discriminate | assumption].
    + rewrite (loop_step_mismatch st x y Hne Hw) in H; discriminate.
Qed.

Lemma run_items_cons it items st :
  run_items (it :: items) st = (st' <- loop_step st it ;; run_items items st').
Proof. reflexivity. Qed.

(** The prediction the loop carries is the raw output of the model on the
    window it carries. *)
Lemma run_items_prediction items st st' :
  st_prediction st = model (st_seq st) ->
  run_items items st = Ok st' ->
  st_prediction st' = model (st_seq st').
Proof.
  revert st; induction items as [|[x y] items IH]; intros st Hp H.
  - inversion H; subst; assumption.
  - rewrite run_items_cons in H.
    destruct (loop_step st (x, y)) as [st1|e] eqn:H1; cbn [bind] in H; [|discriminate].
    apply loop_step_inv in H1 as (_ & _ & ->).
    apply IH in H; [assumption | reflexivity].
Qed.

(** *** The windows of the specification *)

Lemma spec_windows_cons w rest :
  spec_windows w rest = w :: tl (spec_windows w rest).
Proof. destruct rest as [|[x y] rest]; reflexivity. Qed.

Lemma length_spec_windows w rest :
  length (spec_windows w rest) = S (length rest).
Proof.
  revert w; induction rest as [|[x y] rest IH]; intros w; simpl; [reflexivity|].
  rewrite IH; reflexivity.
Qed.

Lemma nth_spec_windows w rest k :
  k <= length rest ->
  nth_error (spec_windows w rest) k = Some (last (spec_windows w (firstn k rest)) w).
Proof.
  revert w k; induction rest as [|[x y] rest IH]; intros w [|k] Hk;
    simpl in Hk; try lia; try reflexivity.
  cbn [firstn spec_windows nth_error].
  rewrite IH by lia.
  rewrite (spec_windows_cons _ (firstn k rest)), !last_cons_default; reflexivity.
Qed.

Lemma shaped_slide L W (w : matrix elt) (v : vec elt) :
  1 <= L -> shaped L W w -> length v = W -> shaped L W (slide w v).
Proof.
  intros HL (Hc & Hr & Hwf) Hv; unfold shaped, nrows, wf_matrix, slide in *.
  cbn [ncols rows]; repeat split.
  - assumption.
  - rewrite length_app; simpl. destruct (rows w); simpl in *; lia.
  - apply Forall_app; split.
    + destruct (rows w); simpl; [constructor|]. inversion Hwf; assumption.
    + constructor; [congruence | constructor].
Qed.

Lemma length_last_row L W (x : matrix elt) :
  1 <= L -> shaped L W x -> rows x <> [] /\ length (last (rows x) []) = W.
Proof.
  intros HL (Hc & Hr & Hwf); unfold nrows, wf_matrix in *.
  destruct (rows x) as [|r rs] eqn:Hx; [simpl in Hr; lia|].
  split; [discriminate|].
  assert (Hin : In (last (r :: rs) []) (r :: rs)).
  { destruct (exists_last (l := r :: rs)) as (l' & a & E); [discriminate|].
    rewrite E, last_last. apply in_or_app; right; left; reflexivity. }
  rewrite Forall_forall in Hwf. rewrite (Hwf _ Hin); assumption.
Qed.

Lemma length_exogenous L W (x : matrix elt) :
  1 <= L -> 2 <= W -> shaped L W x -> rows x <> [] /\ length (exogenous x) = 2.
Proof.
  intros HL HW Hx; destruct (length_last_row L W x HL Hx) as (Hne & Hlen).
  split; [assumption|]. unfold exogenous; rewrite length_last2, Hlen; lia.
Qed.

Lemma Forall_prefix {A : Type} (P : A -> Prop) (k : nat) (l : list A) :
  Forall P l -> Forall P (firstn k l).
Proof.
  revert k; induction l as [|a l IH]; intros [|k] H; simpl; try constructor;
    inversion H; subst; auto.
Qed.

Lemma last_spec_windows_cons w x y items d d' :
  last (spec_windows w ((x, y) :: items)) d =
  last (spec_windows (slide w (model w ++ exogenous x)) items) d'.
Proof.
  cbn [spec_windows].
  rewrite (spec_windows_cons _ items), !last_cons_default; reflexivity.
Qed.

(** *** The loop computes the rollout of the specification *)

Lemma run_items_spec L W items :
  1 <= L -> predictor_ok L W ->
  forall w yt yp,
    shaped L W w -> source_ok L W items ->
    let wk := last (spec_windows w items) w in
    run_items items (LoopState w (model w) yt yp) =
      Ok (LoopState wk (model wk)
            (yt ++ map (fun it => unscale_temperature (snd it)) items)
            (yp ++ map (fun w' => unscale_temperature (model w'))
                       (tl (spec_windows w items))))
    /\ shaped L W wk.
Proof.
  intros HL Hp; induction items as [|[x y] items IH]; intros w yt yp Hw Hsrc.
  - cbn; rewrite !app_nil_r; auto.
  - inversion Hsrc as [|? ? Hx Hsrc']; subst; cbn [fst] in Hx.
    pose proof (Hp w Hw) as Hm.
    destruct (length_exogenous L W x HL ltac:(lia) Hx) as (Hne & Hexo).
    rewrite run_items_cons, loop_step_fits;
      [| assumption | cbn [st_prediction st_seq]; destruct Hw as (-> & _); lia].
    cbn [bind]; unfold next_state; cbn [st_seq st_prediction st_y_true st_y_pred].
    rewrite (last_spec_windows_cons w x y items w (slide w (model w ++ exogenous x))).
    change (tl (spec_windows w ((x, y) :: items)))
      with (spec_windows (slide w (model w ++ exogenous x)) items).
    remember (slide w (model w ++ exogenous x)) as w' eqn:Ew'.
    assert (Hw' : shaped L W w').
    { subst w'; apply shaped_slide; [assumption | assumption | rewrite length_app; lia]. }
    destruct (IH w' (yt ++ [unscale_temperature y])
                 (yp ++ [unscale_temperature (model w')]) Hw' Hsrc') as (E & Hk).
    cbv zeta in E, Hk |- *.
    rewrite E; split; [|assumption].
    rewrite <- !app_assoc; cbn [app].
    do 2 f_equal.
    rewrite (spec_windows_cons w' items) at 2; reflexivity.
Qed.

(** The state after step [k], under the data-model conditions. *)
Lemma rollout_state_spec L W w0 t0 rest k :
  1 <= L -> predictor_ok L W -> source_ok L W ((w0, t0) :: rest) ->
  k <= length rest ->
  exists st,
    rollout_state ((w0, t0) :: rest) k = Ok st /\
    shaped L W (st_seq st) /\
    st_prediction st = model (st_seq st) /\
    nth_error (spec_windows w0 rest) k = Some (st_seq st) /\
    st_y_true st =
      map (fun it => unscale_temperature (snd it)) (firstn (S k) ((w0, t0) :: rest)) /\
    st_y_pred st =
      map (fun w => unscale_temperature (model w)) (firstn (S k) (spec_windows w0 rest)).
Proof.
  intros HL Hp Hsrc Hk.
  inversion Hsrc as [|? ? Hw0 Hrest]; subst; cbn [fst] in Hw0.
  destruct (run_items_spec L W (firstn k rest) HL Hp w0
              [unscale_temperature t0] [unscale_temperature (model w0)] Hw0
              (Forall_prefix _ k rest Hrest)) as (E & Hsh).
  cbv zeta in E, Hsh.
  eexists; split; [rewrite rollout_state_items by assumption; exact E|].
  cbn [st_seq st_prediction st_y_true st_y_pred].
  split; [assumption|]. split; [reflexivity|].
  split; [apply nth_spec_windows; assumption|]. split; [reflexivity|].
  - rewrite (spec_windows_cons w0 rest); cbn [firstn map app]. f_equal.
    f_equal.
    clear - Hk. revert w0 k Hk.
    induction rest as [|[x y] rest IH]; intros w0 [|k] Hk; simpl in Hk; try lia;
      try reflexivity.
    cbn [firstn spec_windows tl].
    rewrite (spec_windows_cons _ (firstn k rest)), (spec_windows_cons _ rest).
    cbn [firstn tl]; f_equal. apply IH; lia.
Qed.

(** *** What a run of the loop keeps *)

Lemma run_items_lists items st st' :
  run_items items st = Ok st' ->
  exists l1 l2,
    st_y_true st' = st_y_true st ++ l1 /\ st_y_pred st' = st_y_pred st ++ l2 /\
    length l1 = length items /\ length l2 = length items.
Proof.
  revert st; induction items as [|[x y] items IH]; intros st H.
  - inversion H; subst. exists [], []. rewrite !app_nil_r; auto.
  - rewrite run_items_cons in H.
    destruct (loop_step st (x, y)) as [st1|e] eqn:H1; cbn [bind] in H; [|discriminate].
    apply loop_step_inv in H1 as (_ & _ & ->).
    destruct (IH _ H) as (l1 & l2 & E1 & E2 & N1 & N2).
    unfold next_state in E1, E2; cbn [st_y_true st_y_pred] in E1, E2.
    eexists (_ :: l1), (_ :: l2).
    rewrite E1, E2, <- !app_assoc; cbn [app length]; auto.
Qed.

Lemma run_items_ncols items st st' :
  run_items items st = Ok st' -> ncols (st_seq st') = ncols (st_seq st).
Proof.
  revert st; induction items as [|[x y] items IH]; intros st H.
  - inversion H; reflexivity.
  - rewrite run_items_cons in H.
    destruct (loop_step st (x, y)) as [st1|e] eqn:H1; cbn [bind] in H; [|discriminate].
    apply loop_step_inv in H1 as (_ & _ & ->).
    rewrite (IH _ H); reflexivity.
Qed.

Lemma rollout_state_inv w0 t0 rest k st :
  k <= length rest ->
  rollout_state ((w0, t0) :: rest) k = Ok st ->
  st_prediction st = model (st_seq st) /\ ncols (st_seq st) = ncols w0.
Proof.
  intros Hk H; rewrite rollout_state_items in H by assumption; split.
  - apply (run_items_prediction _ (loop_init (w0, t0)) _ eq_refl H).
  - apply (run_items_ncols _ _ _ H).
Qed.

Lemma rollout_state_succ_inv d k st' :
  rollout_state d (S k) = Ok st' ->
  exists st x y,
    rollout_state d k = Ok st /\ nth_error d (S k) = Some (x, y) /\
    loop_step st (x, y) = Ok st'.
Proof.
  rewrite rollout_state_succ; intros H.
  destruct (rollout_state d k) as [st|e]; cbn [bind] in H; [|discriminate].
  unfold loop_body, dataset_getitem, list_getitem in H.
  destruct (nth_error d (S k)) as [[x y]|]; cbn [bind] in H; [|discriminate].
  exists st, x, y; auto.
Qed.

(** The block extractor is the rollout followed by the extraction loop. *)
Lemma get_block_temperature_recurrent_result d b :
  get_block_temperature_recurrent model unscale_temperature d b =
  match get_true_pred_recurrent d with
  | Ok res => extract_block res b
  | Raise e => Raise e
  end.
Proof. reflexivity. Qed.

(** *** The claims on the rollout *)

(** C1.  At a step [i >= 1] of the rollout, the row appended to the
    maintained window is [prediction_{i-1}], the raw output of the model on
    the window of step [i - 1], followed by the last 2 columns of the final
    row of the source's [window_i]: the row starts with that prediction and
    the columns after it are those exogenous values.  Over a source of
    [L >= 1] by [W] windows and with a Predictor that answers [W - 2] values,
    every step [i < N] is reached, the prediction fills the first [W - 2]
    columns and the exogenous values the last 2. *)
Theorem new_row_is_previous_prediction (d : dataset elt) (i : nat) :
  1 <= i ->
  (forall prev st x y,
      rollout_state d (i - 1) = Ok prev ->
      rollout_state d i = Ok st ->
      nth_error d i = Some (x, y) ->
      let new_row := last (rows (st_seq st)) [] in
      st_prediction prev = model (st_seq prev) /\
      rows (st_seq st) = tl (rows (st_seq prev)) ++ [new_row] /\
      new_row = st_prediction prev ++ last2 (last (rows x) []) /\
      firstn (length (st_prediction prev)) new_row = st_prediction prev /\
      skipn (length (st_prediction prev)) new_row = last2 (last (rows x) [])) /\
  (forall L W,
      1 <= L -> source_ok L W d -> predictor_ok L W -> i < length d ->
      exists prev st x y,
        rollout_state d (i - 1) = Ok prev /\
        rollout_state d i = Ok st /\
        nth_error d i = Some (x, y) /\
        length (st_prediction prev) = W - 2 /\
        last2 (last (rows x) []) = skipn (W - 2) (last (rows x) []) /\
        length (last2 (last (rows x) [])) = 2).
Proof.
  intros Hi; destruct i as [|k]; [lia|]. replace (S k - 1) with k by lia.
  split.
  - intros prev st x y Eprev Est Hn new_row.
    apply rollout_state_succ_inv in Est as (prev' & x' & y' & Eprev' & Hn' & Hs).
    rewrite Eprev in Eprev'; inversion Eprev'; subst prev'.
    rewrite Hn in Hn'; inversion Hn'; subst x' y'.
    apply loop_step_inv in Hs as (_ & _ & Est).
    destruct d as [|[w0 t0] rest]; [discriminate|].
    assert (Hk : k <= length rest).
    { assert (S k < length ((w0, t0) :: rest)) by (apply nth_error_Some; congruence).
      simpl in *; lia. }
    destruct (rollout_state_inv w0 t0 rest k prev Hk Eprev) as (Hp & _).
    assert (Hrow : new_row = st_prediction prev ++ last2 (last (rows x) [])).
    { subst new_row st; unfold next_state, slide; cbn [st_seq rows].
      rewrite last_last; reflexivity. }
    split; [assumption|]. split.
    { rewrite Hrow; subst st; reflexivity. }
    split; [assumption|]. rewrite Hrow. split.
    + rewrite firstn_app, firstn_all, Nat.sub_diag; cbn [firstn]. apply app_nil_r.
    + rewrite skipn_app, skipn_all, Nat.sub_diag; reflexivity.
  - intros L W HL Hsrc Hp Hlt.
    destruct d as [|[w0 t0] rest]; [simpl in Hlt; lia|]. simpl in Hlt.
    destruct (rollout_state_spec L W w0 t0 rest k HL Hp Hsrc ltac:(lia))
      as (prev & Eprev & Hsh & Hpred & _).
    destruct (rollout_state_spec L W w0 t0 rest (S k) HL Hp Hsrc ltac:(lia))
      as (st & Est & _).
    destruct (nth_error ((w0, t0) :: rest) (S k)) as [[x y]|] eqn:Hn;
      [|apply nth_error_None in Hn; simpl in Hn; lia].
    assert (Hx : shaped L W x).
    { unfold source_ok in Hsrc; rewrite Forall_forall in Hsrc.
      apply (Hsrc (x, y)), (nth_error_In _ _ Hn). }
    pose proof (Hp _ Hsh) as Hm.
    destruct (length_last_row L W x HL Hx) as (_ & Hlast).
    exists prev, st, x, y.
    split; [assumption|]. split; [assumption|]. split; [reflexivity|].
    split; [rewrite Hpred; lia|].
    unfold last2; rewrite length_skipn, Hlast. split; [reflexivity | lia].
Qed.

Lemma rollout_state_bound d k st :
  rollout_state d k = Ok st -> k < length d.
Proof.
  destruct k as [|k]; intros H.
  - destruct d; [discriminate | simpl; lia].
  - apply rollout_state_succ_inv in H as (_ & x & y & _ & Hn & _).
    apply nth_error_Some; congruence.
Qed.

(** The window a run of the loop ends with is the last of the windows of
    the specification, whatever the shapes. *)
Lemma run_items_window items st st' :
  st_prediction st = model (st_seq st) ->
  run_items items st = Ok st' ->
  st_seq st' = last (spec_windows (st_seq st) items) (st_seq st).
Proof.
  revert st; induction items as [|[x y] items IH]; intros st Hp H.
  - inversion H; subst; reflexivity.
  - rewrite run_items_cons in H.
    destruct (loop_step st (x, y)) as [st1|e] eqn:H1; cbn [bind] in H; [|discriminate].
    apply loop_step_inv in H1 as (_ & _ & ->).
    rewrite (IH (next_state st x y) eq_refl H); unfold next_state; cbn [st_seq].
    rewrite Hp. symmetry.
    apply (last_spec_windows_cons (st_seq st) x y items (st_seq st)).
Qed.

(** C2.  On a non-empty source the loop is entered with the source's own
    [window_0], [true_0 = unscale(target_0)] and
    [pred_0 = unscale(model(window_0))]; a source of length 1 gives exactly
    these back; whatever follows, a rollout that returns has them at index 0;
    and [window_0] is the first of the windows fed to the Predictor.  It is
    the only window taken from the source: at every step that is reached the
    window fed to the model is the window of the specification for that
    step, and at a step [k + 1] it is the window carried from step [k]
    without its first row and with one new row, the model's own output on
    the carried window followed by [x[-1, -2:]], so that nothing else of the
    source's window, and nothing of its targets, enters it. *)
Theorem step0_uses_source_window (w0 : matrix elt) (t0 : vec elt)
        (rest : list (matrix elt * vec elt)) :
  rollout_state ((w0, t0) :: rest) 0 =
    Ok (LoopState w0 (model w0) [unscale_temperature t0]
                  [unscale_temperature (model w0)]) /\
  get_true_pred_recurrent [(w0, t0)] =
    Ok ([unscale_temperature t0], [unscale_temperature (model w0)]) /\
  (forall y_true y_pred,
      get_true_pred_recurrent ((w0, t0) :: rest) = Ok (y_true, y_pred) ->
      hd_error y_true = Some (unscale_temperature t0) /\
      hd_error y_pred = Some (unscale_temperature (model w0))) /\
  hd_error (spec_windows w0 rest) = Some w0 /\
  (forall k st,
      rollout_state ((w0, t0) :: rest) k = Ok st ->
      nth_error (spec_windows w0 rest) k = Some (st_seq st) /\
      st_prediction st = model (st_seq st)) /\
  (forall k st,
      rollout_state ((w0, t0) :: rest) (S k) = Ok st ->
      exists prev x y,
        rollout_state ((w0, t0) :: rest) k = Ok prev /\
        nth_error rest k = Some (x, y) /\
        st_seq st =
          Matrix (ncols w0)
                 (tl (rows (st_seq prev)) ++
                  [model (st_seq prev) ++ last2 (last (rows x) [])])).
Proof.
  split; [reflexivity|]. split; [reflexivity|]. split; [|split; [|split]].
  - intros y_true y_pred H.
    rewrite get_true_pred_recurrent_items in H.
    destruct (run_items rest (loop_init (w0, t0))) as [st|e] eqn:E;
      cbn [bind] in H; [|discriminate].
    inversion H; subst.
    destruct (run_items_lists _ _ _ E) as (l1 & l2 & -> & -> & _).
    split; reflexivity.
  - rewrite (spec_windows_cons w0 rest); reflexivity.
  - intros k st H.
    assert (Hk : k <= length rest).
    { apply rollout_state_bound in H; simpl in H; lia. }
    destruct (rollout_state_inv w0 t0 rest k st Hk H) as (Hp & _).
    split; [|assumption].
    rewrite rollout_state_items in H by assumption.
    rewrite (nth_spec_windows w0 rest k Hk).
    rewrite (run_items_window _ (loop_init (w0, t0)) _ eq_refl H); reflexivity.
  - intros k st H.
    apply rollout_state_succ_inv in H as (prev & x & y & Eprev & Hn & Hs).
    assert (Hk : k <= length rest).
    { apply rollout_state_bound in Eprev; simpl in Eprev; lia. }
    destruct (rollout_state_inv w0 t0 rest k prev Hk Eprev) as (Hp & Hc).
    apply loop_step_inv in Hs as (_ & _ & ->).
    exists prev, x, y. split; [assumption|]. split; [exact Hn|].
    unfold next_state, slide, exogenous; cbn [st_seq]. rewrite Hp, Hc; reflexivity.
Qed.

(** C3.  Over a source of length [N >= 1] that meets the data-model
    conditions (windows of [L >= 1] rows and [W] columns, a Predictor that
    answers [W - 2] values), the rollout returns two lists of length [N];
    at every index [i] the first holds [unscale(target_i)] and the second
    [unscale(prediction_i)], where [prediction_i] is the prediction the
    loop carries after step [i], the output of the model on the [i]-th
    window of the specification. *)
Theorem rollout_returns_result_sequence (L W : nat) (w0 : matrix elt) (t0 : vec elt)
        (rest : list (matrix elt * vec elt)) :
  let d := (w0, t0) :: rest in
  1 <= L -> source_ok L W d -> predictor_ok L W ->
  exists y_true y_pred,
    get_true_pred_recurrent d = Ok (y_true, y_pred) /\
    (y_true, y_pred) = spec_rollout w0 t0 rest /\
    length y_true = length d /\ length y_pred = length d /\
    forall i x y,
      nth_error d i = Some (x, y) ->
      nth_error y_true i = Some (unscale_temperature y) /\
      exists st,
        rollout_state d i = Ok st /\
        st_prediction st = model (st_seq st) /\
        nth_error (spec_windows w0 rest) i = Some (st_seq st) /\
        nth_error y_pred i = Some (unscale_temperature (st_prediction st)).
Proof.
  intros d HL Hsrc Hp; subst d.
  destruct (rollout_state_spec L W w0 t0 rest (length rest) HL Hp Hsrc (le_n _))
    as (st & E & _ & _ & _ & Ht & Hq).
  rewrite rollout_state_items, firstn_all in E by apply le_n.
  rewrite firstn_all2 in Ht by (simpl; lia).
  rewrite firstn_all2 in Hq by (rewrite length_spec_windows; lia).
  exists (st_y_true st), (st_y_pred st).
  split; [rewrite get_true_pred_recurrent_items, E; reflexivity|].
  split; [unfold spec_rollout; rewrite Ht, Hq; reflexivity|].
  split; [rewrite Ht, length_map; reflexivity|].
  split; [rewrite Hq, length_map, length_spec_windows; reflexivity|].
  intros i x y Hn.
  assert (Hi : i <= length rest).
  { assert (i < length ((w0, t0) :: rest)) by (apply nth_error_Some; congruence).
    simpl in *; lia. }
  split.
  - rewrite Ht. rewrite (nth_error_map (fun it => unscale_temperature (snd it))), Hn.
    reflexivity.
  - destruct (rollout_state_spec L W w0 t0 rest i HL Hp Hsrc Hi)
      as (sti & Ei & _ & Hpi & Hwi & _).
    exists sti. split; [assumption|]. split; [assumption|]. split; [assumption|].
    rewrite Hq, (nth_error_map (fun w => unscale_temperature (model w))), Hwi, Hpi.
    reflexivity.
Qed.

(** C4.  When [window_0] has [L] rows, with [L >= 1] or with every window
    of the source having [L] rows as well, the window carried after any
    number of steps has [L] rows, and a step leads from a window to that
    window without its first row and with one new row at the end. *)
Theorem window_keeps_its_length (L : nat) (w0 : matrix elt) (t0 : vec elt)
        (rest : list (matrix elt * vec elt)) (k : nat) (st : loop_state elt) :
  nrows w0 = L ->
  1 <= L \/ Forall (fun it => nrows (fst it) = L) rest ->
  rollout_state ((w0, t0) :: rest) k = Ok st ->
  nrows (st_seq st) = L /\
  forall st',
    rollout_state ((w0, t0) :: rest) (S k) = Ok st' ->
    exists new_row, rows (st_seq st') = tl (rows (st_seq st)) ++ [new_row].
Proof.
  intros Hw0 HL; revert st; induction k as [|k IH]; intros st H.
  - split.
    + inversion H; subst; reflexivity.
    + intros st' H'. apply rollout_state_succ_inv in H' as (st1 & x & y & E1 & _ & Hs).
      rewrite H in E1; inversion E1; subst st1.
      apply loop_step_inv in Hs as (_ & _ & ->). eexists; reflexivity.
  - pose proof H as H0.
    apply rollout_state_succ_inv in H0 as (prev & x & y & Eprev & Hn & Hs).
    destruct (IH prev Eprev) as (Hlen & _).
    apply loop_step_inv in Hs as (Hne & _ & Est).
    split.
    + subst st; unfold next_state, slide, nrows in *; cbn [st_seq rows].
      rewrite length_app; cbn [length].
      destruct (rows (st_seq prev)) as [|r rs] eqn:Hr; cbn [tl length] in *; [|lia].
      destruct HL as [HL|HL]; [lia|].
      rewrite Forall_forall in HL.
      cbn [nth_error] in Hn. apply nth_error_In in Hn. apply HL in Hn.
      cbn [fst] in Hn. rewrite <- Hlen in Hn.
      destruct (rows x); [congruence | discriminate].
    + intros st' H'. apply rollout_state_succ_inv in H' as (st1 & x' & y' & E1 & _ & Hs').
      rewrite H in E1; inversion E1; subst st1.
      apply loop_step_inv in Hs' as (_ & _ & ->). eexists; reflexivity.
Qed.

(** C5, as the code has it.  When step [k + 1] is reached with a source
    window that has a row, and the width of the model's output on the
    carried window plus the number of values [x[-1, -2:]] yields (2, or the
    width of that row when it is smaller) is not the width of [window_0],
    [torch.cat] raises and the rollout fails with that [RuntimeError]. *)
Theorem width_mismatch_raises (w0 : matrix elt) (t0 : vec elt)
        (rest : list (matrix elt * vec elt)) (k : nat) (st : loop_state elt)
        (x : matrix elt) (y : vec elt) :
  rollout_state ((w0, t0) :: rest) k = Ok st ->
  nth_error ((w0, t0) :: rest) (S k) = Some (x, y) ->
  rows x <> [] ->
  length (model (st_seq st)) + Nat.min 2 (length (last (rows x) [])) <> ncols w0 ->
  rollout_state ((w0, t0) :: rest) (S k) = Raise RuntimeError /\
  get_true_pred_recurrent ((w0, t0) :: rest) = Raise RuntimeError.
Proof.
  intros H Hn Hne Hw.
  assert (Hk : S k <= length rest).
  { assert (S k < length ((w0, t0) :: rest)) by (apply nth_error_Some; congruence).
    simpl in *; lia. }
  destruct (rollout_state_inv w0 t0 rest k st ltac:(lia) H) as (Hp & Hc).
  assert (E : rollout_state ((w0, t0) :: rest) (S k) = Raise RuntimeError).
  { rewrite rollout_state_succ, H; cbn [bind].
    unfold loop_body, dataset_getitem, list_getitem; rewrite Hn; cbn [bind].
    apply loop_step_mismatch; [assumption|].
    unfold exogenous; rewrite length_last2, Hp, Hc; assumption. }
  split; [assumption|].
  rewrite get_true_pred_recurrent_state.
  rewrite (rollout_state_raise _ (S k) _ _ E); [reflexivity | simpl; lia].
Qed.

(** C6.  On the empty source the rollout raises the [IndexError] of
    [test_dataset[0]], and a rollout that returns never returns empty
    lists: both have the length of the source, which is at least 1. *)
Theorem empty_source_raises :
  get_true_pred_recurrent [] = Raise IndexError /\
  forall d y_true y_pred,
    get_true_pred_recurrent d = Ok (y_true, y_pred) ->
    1 <= length d /\ length y_true = length d /\ length y_pred = length d /\
    y_true <> [] /\ y_pred <> [].
Proof.
  split; [reflexivity|].
  intros [|[w0 t0] rest] y_true y_pred H; [discriminate|].
  rewrite get_true_pred_recurrent_items in H.
  destruct (run_items rest (loop_init (w0, t0))) as [st|e] eqn:E;
    cbn [bind] in H; [|discriminate].
  inversion H; subst.
  destruct (run_items_lists _ _ _ E) as (l1 & l2 & -> & -> & N1 & N2).
  cbn [loop_init st_y_true st_y_pred app length].
  rewrite N1, N2. repeat split; try lia; discriminate.
Qed.

End RecurrentFacts.



Section ExtractFacts.
Variable elt : Type.

Lemma index1_selected (v : vec elt) (B : nat) (b : Z) (j : nat) :
  length v = B -> selected_block B b = Some j ->
  exists t, nth_error v j = Some t /\ index1 v (b - 1) = Ok t.
Proof.
  intros Hlen Hsel; unfold selected_block in Hsel; unfold index1; rewrite Hlen.
  destruct (Z.leb_spec 1 b), (Z.leb_spec b (Z.of_nat B)); cbn [andb] in Hsel.
  - inversion Hsel; subst j; clear Hsel.
    destruct (Z.ltb_spec (b - 1) 0); [lia|].
    destruct (Z.leb_spec 0 (b - 1)); [|lia].
    destruct (Z.ltb_spec (b - 1) (Z.of_nat B)); [|lia]; cbn [andb].
    destruct (nth_error v (Z.to_nat (b - 1))) as [t|] eqn:E; [eauto|].
    apply nth_error_None in E; lia.
  - destruct (Z.leb_spec (1 - Z.of_nat B) b), (Z.leb_spec b 0);
      cbn [andb] in Hsel; try discriminate; lia.
  - destruct (Z.leb_spec (1 - Z.of_nat B) b), (Z.leb_spec b 0);
      cbn [andb] in Hsel; try discriminate; try lia.
    inversion Hsel; subst j; clear Hsel.
    destruct (Z.ltb_spec (b - 1) 0); [|lia].
    replace (b - 1 + Z.of_nat B)%Z with (Z.of_nat B + b - 1)%Z by lia.
    destruct (Z.leb_spec 0 (Z.of_nat B + b - 1)); [|lia].
    destruct (Z.ltb_spec (Z.of_nat B + b - 1) (Z.of_nat B)); [|lia]; cbn [andb].
    destruct (nth_error v (Z.to_nat (Z.of_nat B + b - 1))) as [t|] eqn:E; [eauto|].
    apply nth_error_None in E; lia.
  - destruct (Z.leb_spec (1 - Z.of_nat B) b), (Z.leb_spec b 0);
      cbn [andb] in Hsel; try discriminate; lia.
Qed.

Lemma index1_unselected (v : vec elt) (B : nat) (b : Z) :
  length v = B -> selected_block B b = None ->
  index1 v (b - 1) = Raise (index_error (b - 1)).
Proof.
  intros Hlen Hsel; unfold selected_block in Hsel; unfold index1; rewrite Hlen.
  destruct (Z.leb_spec 1 b), (Z.leb_spec b (Z.of_nat B)); cbn [andb] in Hsel;
    try discriminate;
    destruct (Z.leb_spec (1 - Z.of_nat B) b), (Z.leb_spec b 0);
    cbn [andb] in Hsel; try discriminate; try lia.
  - destruct (Z.ltb_spec (b - 1) 0); [lia|].
    destruct (Z.leb_spec 0 (b - 1)); [|lia].
    destruct (Z.ltb_spec (b - 1) (Z.of_nat B)); [lia|]; reflexivity.
  - destruct (Z.ltb_spec (b - 1) 0); [|lia].
    destruct (Z.leb_spec 0 (b - 1 + Z.of_nat B)); [lia|]; reflexivity.
Qed.

Lemma nth_error_length {A : Type} (P : A -> Prop) (l : list A) (a : nat) :
  Forall P l -> a < length l -> exists v, nth_error l a = Some v /\ P v.
Proof.
  intros HP Ha. destruct (nth_error l a) as [v|] eqn:E.
  - exists v; split; [reflexivity|].
    rewrite Forall_forall in HP; apply HP, (nth_error_In _ _ E).
  - apply nth_error_None in E; lia.
Qed.

Lemma extract_loop_selected (B : nat) (b : Z) (j : nat)
      (y_true y_pred : list (vec elt)) :
  Forall (fun v => length v = B) y_true ->
  Forall (fun v => length v = B) y_pred ->
  length y_true = length y_pred ->
  selected_block B b = Some j ->
  forall n a ta pa,
    a + n <= length y_true ->
    exists ts ps,
      extract_loop y_true y_pred b (seq a n) (ta, pa) = Ok (ta ++ ts, pa ++ ps) /\
      Forall2 (fun v t => nth_error v j = Some t) (firstn n (skipn a y_true)) ts /\
      Forall2 (fun v p => nth_error v j = Some p) (firstn n (skipn a y_pred)) ps.
Proof.
  intros Ht Hp Hlen Hsel; induction n as [|n IH]; intros a ta pa Ha.
  - exists [], []; cbn; rewrite !app_nil_r; auto.
  - destruct (nth_error_length _ y_true a Ht ltac:(lia)) as (v & Ev & Lv).
    destruct (nth_error_length _ y_pred a Hp ltac:(lia)) as (q & Eq & Lq).
    destruct (index1_selected v B b j Lv Hsel) as (t & Nt & It).
    destruct (index1_selected q B b j Lq Hsel) as (p & Np & Ip).
    destruct (IH (S a) (ta ++ [t]) (pa ++ [p]) ltac:(lia)) as (ts & ps & E & F1 & F2).
    exists (t :: ts), (p :: ps).
    cbn [seq extract_loop]; unfold list_getitem.
    rewrite Ev; cbn [bind]; rewrite It; cbn [bind].
    rewrite Eq; cbn [bind]; rewrite Ip; cbn [bind fst snd].
    rewrite E, <- !app_assoc; cbn [app].
    rewrite (skipn_nth_error _ _ _ Ev), (skipn_nth_error _ _ _ Eq); cbn [firstn].
    repeat split; try constructor; assumption.
Qed.

Lemma extract_block_selected (B : nat) (b : Z) (j : nat)
      (y_true y_pred : list (vec elt)) :
  Forall (fun v => length v = B) y_true ->
  Forall (fun v => length v = B) y_pred ->
  length y_true = length y_pred ->
  selected_block B b = Some j ->
  exists ts ps,
    extract_block (y_true, y_pred) b = Ok (ts, ps) /\
    Forall2 (fun v t => nth_error v j = Some t) y_true ts /\
    Forall2 (fun v p => nth_error v j = Some p) y_pred ps.
Proof.
  intros Ht Hp Hlen Hsel.
  destruct (extract_loop_selected B b j y_true y_pred Ht Hp Hlen Hsel
              (length y_true) 0 [] [] (le_n _)) as (ts & ps & E & F1 & F2).
  cbn [skipn app] in *.
  rewrite firstn_all in F1. rewrite Hlen, firstn_all in F2.
  exists ts, ps; auto.
Qed.

Lemma extract_block_unselected (B : nat) (b : Z) (y_true y_pred : list (vec elt)) :
  Forall (fun v => length v = B) y_true ->
  selected_block B b = None ->
  y_true <> [] ->
  extract_block (y_true, y_pred) b = Raise (index_error (b - 1)).
Proof.
  intros Ht Hsel Hne; destruct y_true as [|v y_true]; [congruence|].
  inversion Ht; subst.
  cbn [extract_block length seq extract_loop list_getitem nth_error bind].
  rewrite (index1_unselected v (length v) b eq_refl Hsel); reflexivity.
Qed.

(** C7, as the code has it.  On a Result Sequence whose vectors all have
    length [B]: for [1 <= b <= B] the extractor returns the two series of
    the values at position [b - 1]; for [1 - B <= b <= 0] it returns those at
    position [B + b - 1], a negative index counting from the end; for
    [b < 1 - B] or [b > B], the sequence not being empty, it raises
    [IndexError] when the index [b - 1] fits 64 bits and torch's overflow
    error when it does not. *)
Theorem block_extractor_contract (B : nat) (b : Z) (y_true y_pred : list (vec elt)) :
  Forall (fun v => length v = B) y_true ->
  Forall (fun v => length v = B) y_pred ->
  length y_true = length y_pred ->
  ((1 <= b <= Z.of_nat B)%Z ->
   exists ts ps,
     extract_block (y_true, y_pred) b = Ok (ts, ps) /\
     length ts = length y_true /\ length ps = length y_true /\
     Forall2 (fun v t => nth_error v (Z.to_nat (b - 1)) = Some t) y_true ts /\
     Forall2 (fun v p => nth_error v (Z.to_nat (b - 1)) = Some p) y_pred ps) /\
  ((1 - Z.of_nat B <= b <= 0)%Z ->
   exists ts ps,
     extract_block (y_true, y_pred) b = Ok (ts, ps) /\
     length ts = length y_true /\ length ps = length y_true /\
     Forall2 (fun v t => nth_error v (Z.to_nat (Z.of_nat B + b - 1)) = Some t)
             y_true ts /\
     Forall2 (fun v p => nth_error v (Z.to_nat (Z.of_nat B + b - 1)) = Some p)
             y_pred ps) /\
  ((b < 1 - Z.of_nat B \/ Z.of_nat B < b)%Z ->
   y_true <> [] ->
   ((- 2 ^ 63 <= b - 1 < 2 ^ 63)%Z ->
    extract_block (y_true, y_pred) b = Raise IndexError) /\
   ((b - 1 < - 2 ^ 63 \/ 2 ^ 63 <= b - 1)%Z ->
    extract_block (y_true, y_pred) b = Raise OverflowError)).
Proof.
  intros Ht Hp Hlen; split; [|split].
  - intros Hb.
    destruct (extract_block_selected B b (Z.to_nat (b - 1)) y_true y_pred Ht Hp Hlen)
      as (ts & ps & E & F1 & F2).
    { unfold selected_block.
      destruct (Z.leb_spec 1 b), (Z.leb_spec b (Z.of_nat B)); try lia; reflexivity. }
    exists ts, ps. split; [assumption|].
    split; [symmetry; apply (Forall2_length F1)|].
    split; [rewrite Hlen; symmetry; apply (Forall2_length F2)|]. auto.
  - intros Hb.
    destruct (extract_block_selected B b (Z.to_nat (Z.of_nat B + b - 1))
                y_true y_pred Ht Hp Hlen) as (ts & ps & E & F1 & F2).
    { unfold selected_block.
      destruct (Z.leb_spec 1 b), (Z.leb_spec b (Z.of_nat B)); try lia; cbn [andb];
        destruct (Z.leb_spec (1 - Z.of_nat B) b), (Z.leb_spec b 0); try lia;
        reflexivity. }
    exists ts, ps. split; [assumption|].
    split; [symmetry; apply (Forall2_length F1)|].
    split; [rewrite Hlen; symmetry; apply (Forall2_length F2)|]. auto.
  - intros Hb Hne.
    assert (E : extract_block (y_true, y_pred) b = Raise (index_error (b - 1))).
    { apply (extract_block_unselected B b y_true y_pred Ht); [|assumption].
      unfold selected_block.
      destruct (Z.leb_spec 1 b), (Z.leb_spec b (Z.of_nat B)); try lia; cbn [andb];
        destruct (Z.leb_spec (1 - Z.of_nat B) b), (Z.leb_spec b 0); try lia;
        reflexivity. }
    rewrite E; unfold index_error, fits_int64.
    split; intros Hfit.
    + destruct (Z.leb_spec (- 2 ^ 63) (b - 1)); [|lia].
      destruct (Z.ltb_spec (b - 1) (2 ^ 63)); [|lia]. reflexivity.
    + destruct (Z.leb_spec (- 2 ^ 63) (b - 1)); [|reflexivity].
      destruct (Z.ltb_spec (b - 1) (2 ^ 63)); [lia|]. reflexivity.
Qed.

(** C10.  With [B >= 1] blocks, block number 0 does not fail: index [-1]
    reads the final element of every vector, so the extractor returns the
    two series of the last block, at position [B - 1]. *)
Theorem block_zero_reads_last_block (B : nat) (y_true y_pred : list (vec elt)) :
  1 <= B ->
  Forall (fun v => length v = B) y_true ->
  Forall (fun v => length v = B) y_pred ->
  length y_true = length y_pred ->
  exists ts ps,
    extract_block (y_true, y_pred) 0 = Ok (ts, ps) /\
    length ts = length y_true /\ length ps = length y_true /\
    Forall2 (fun v t => nth_error v (B - 1) = Some t) y_true ts /\
    Forall2 (fun v p => nth_error v (B - 1) = Some p) y_pred ps.
Proof.
  intros HB Ht Hp Hlen.
  destruct (extract_block_selected B 0 (B - 1) y_true y_pred Ht Hp Hlen)
    as (ts & ps & E & F1 & F2).
  { unfold selected_block.
    destruct (Z.leb_spec 1 0); [lia|]; cbn [andb].
    destruct (Z.leb_spec (1 - Z.of_nat B) 0); [|lia].
    destruct (Z.leb_spec 0 0); [|lia]; cbn [andb].
    f_equal; lia. }
  exists ts, ps. split; [assumption|].
  split; [symmetry; apply (Forall2_length F1)|].
  split; [rewrite Hlen; symmetry; apply (Forall2_length F2)|]. auto.
Qed.

End ExtractFacts.

(** ** A rollout with [L = 3], [W = 4], [B = 2] and [N = 3] *)

(** A stub model that answers from the last row of its window, and a stub
    unscaling. *)
Definition stub_model (w : matrix Z) : vec Z :=
  match last (rows w) [] with
  | a :: b :: _ => [a + 1; b + 10]%Z
  | _ => [0; 0]%Z
  end.

Definition stub_unscale (v : vec Z) : vec Z := map (fun a => 2 * a + 100)%Z v.

(** A stub model whose answer is one value too wide for windows of width 4. *)
Definition wide_model (w : matrix Z) : vec Z := [1; 2; 3]%Z.

Definition window0 : matrix Z :=
  Matrix 4 [[1; 2; 3; 4]; [5; 6; 7; 8]; [9; 10; 11; 12]]%Z.
Definition window1 : matrix Z :=
  Matrix 4 [[5; 6; 7; 8]; [9; 10; 11; 12]; [13; 14; 15; 16]]%Z.
Definition window2 : matrix Z :=
  Matrix 4 [[9; 10; 11; 12]; [13; 14; 15; 16]; [17; 18; 19; 20]]%Z.

Definition source3 : dataset Z :=
  [(window0, [13; 14]%Z); (window1, [17; 18]%Z); (window2, [21; 22]%Z)].

(** A source whose second window is 5 columns wide. *)
Definition window1_wide : matrix Z :=
  Matrix 5 [[5; 6; 7; 8; 0]; [9; 10; 11; 12; 0]; [13; 14; 15; 16; 0]]%Z.

Definition source_wide : dataset Z :=
  [(window0, [13; 14]%Z); (window1_wide, [17; 18]%Z)].

Lemma source3_ok : source_ok 3 4 source3.
Proof.
  unfold source_ok, source3; repeat constructor.
Qed.

Lemma stub_model_ok : predictor_ok stub_model 3 4.
Proof.
  intros w _; unfold stub_model.
  destruct (last (rows w) []) as [|a [|b l]]; reflexivity.
Qed.

Example rollout_source3 :
  get_true_pred_recurrent stub_model stub_unscale source3 =
  Ok ([[126; 128]; [134; 136]; [142; 144]]%Z,
      [[120; 140]; [122; 160]; [124; 180]]%Z).
Proof. reflexivity. Qed.

(** The window fed to the model at step 2: its last row holds the prediction
    of step 1, [[11; 30]], before the exogenous columns of [window2]. *)
Example rollout_source3_step2 :
  option_map (fun st => rows (st_seq st))
             (match rollout_state stub_model stub_unscale source3 2 with
              | Ok st => Some st
              | Raise _ => None
              end) =
  Some [[9; 10; 11; 12]; [10; 20; 15; 16]; [11; 30; 19; 20]]%Z.
Proof. reflexivity. Qed.

(** At step 2 the appended row is [[11; 30; 19; 20]]: it starts with the
    prediction of step 1, [[11; 30]], which is not the target of step 1,
    [[17; 18]], nor the unscaled prediction, [[122; 160]], nor the columns
    [[17; 18]] of the source's own [window2]. *)
Lemma new_row_is_previous_prediction_witness :
  (exists prev st x y,
      rollout_state stub_model stub_unscale source3 (2 - 1) = Ok prev /\
      rollout_state stub_model stub_unscale source3 2 = Ok st /\
      nth_error source3 2 = Some (x, y) /\
      length (st_prediction prev) = 4 - 2 /\
      last2 (last (rows x) []) = skipn (4 - 2) (last (rows x) []) /\
      length (last2 (last (rows x) [])) = 2) /\
  last (rows (Matrix 4 [[9; 10; 11; 12]; [10; 20; 15; 16]; [11; 30; 19; 20]]%Z)) [] =
    ([11; 30] ++ last2 (last (rows window2) []))%Z.
Proof.
  pose proof (new_row_is_previous_prediction Z stub_model stub_unscale source3 2
                (le_S _ _ (le_n 1))) as [Hstep Hreached].
  split.
  - apply (Hreached 3 4).
    + lia.
    + exact source3_ok.
    + exact stub_model_ok.
    + simpl; lia.
  - exact (proj1 (proj2 (proj2
      (Hstep
         (LoopState (Matrix 4 [[5; 6; 7; 8]; [9; 10; 11; 12]; [10; 20; 15; 16]]%Z)
                    [11; 30]%Z
                    [[126; 128]; [134; 136]]%Z
                    [[120; 140]; [122; 160]]%Z)
         (LoopState (Matrix 4 [[9; 10; 11; 12]; [10; 20; 15; 16]; [11; 30; 19; 20]]%Z)
                    [12; 40]%Z
                    [[126; 128]; [134; 136]; [142; 144]]%Z
                    [[120; 140]; [122; 160]; [124; 180]]%Z)
         window2 [21; 22]%Z eq_refl eq_refl eq_refl)))).
Defined.

Lemma step0_uses_source_window_witness :
  (hd_error [[126; 128]; [134; 136]; [142; 144]]%Z = Some (stub_unscale [13; 14]%Z) /\
   hd_error [[120; 140]; [122; 160]; [124; 180]]%Z =
     Some (stub_unscale (stub_model window0))) /\
  exists prev x y,
    rollout_state stub_model stub_unscale source3 1 = Ok prev /\
    nth_error (tl source3) 1 = Some (x, y) /\
    Matrix 4 [[9; 10; 11; 12]; [10; 20; 15; 16]; [11; 30; 19; 20]]%Z =
      Matrix (ncols window0)
             (tl (rows (st_seq prev)) ++
              [stub_model (st_seq prev) ++ last2 (last (rows x) [])]).
Proof.
  pose proof (step0_uses_source_window Z stub_model stub_unscale
                window0 [13; 14]%Z (tl source3)) as (_ & _ & Hhead & _ & _ & Hlater).
  split.
  - apply Hhead; reflexivity.
  - apply (Hlater 1
             (LoopState (Matrix 4 [[9; 10; 11; 12]; [10; 20; 15; 16]; [11; 30; 19; 20]]%Z)
                        [12; 40]%Z
                        [[126; 128]; [134; 136]; [142; 144]]%Z
                        [[120; 140]; [122; 160]; [124; 180]]%Z)).
    reflexivity.
Defined.

Lemma rollout_returns_result_sequence_witness :
  exists y_true y_pred,
    get_true_pred_recurrent stub_model stub_unscale source3 = Ok (y_true, y_pred) /\
    (y_true, y_pred) =
      spec_rollout stub_model stub_unscale window0 [13; 14]%Z (tl source3) /\
    length y_true = 3 /\ length y_pred = 3 /\
    forall i x y,
      nth_error source3 i = Some (x, y) ->
      nth_error y_true i = Some (stub_unscale y) /\
      exists st,
        rollout_state stub_model stub_unscale source3 i = Ok st /\
        st_prediction st = stub_model (st_seq st) /\
        nth_error (spec_windows stub_model window0 (tl source3)) i = Some (st_seq st) /\
        nth_error y_pred i = Some (stub_unscale (st_prediction st)).
Proof.
  apply (rollout_returns_result_sequence Z stub_model stub_unscale 3 4
           window0 [13; 14]%Z (tl source3)).
  - lia.
  - exact source3_ok.
  - exact stub_model_ok.
Defined.

Lemma window_keeps_its_length_witness :
  nrows (Matrix 4 [[5; 6; 7; 8]; [9; 10; 11; 12]; [10; 20; 15; 16]]%Z) = 3.
Proof.
  apply (proj1 (window_keeps_its_length Z stub_model stub_unscale 3
                  window0 [13; 14]%Z (tl source3) 1
                  (LoopState (Matrix 4 [[5; 6; 7; 8]; [9; 10; 11; 12]; [10; 20; 15; 16]]%Z)
                             [11; 30]%Z
                             [[126; 128]; [134; 136]]%Z
                             [[120; 140]; [122; 160]]%Z)
                  eq_refl (or_introl (le_S _ _ (le_S _ _ (le_n 1)))) eq_refl)).
Defined.

Lemma width_mismatch_raises_witness :
  get_true_pred_recurrent wide_model stub_unscale source3 = Raise RuntimeError.
Proof.
  refine (proj2 (width_mismatch_raises Z wide_model stub_unscale
                   window0 [13; 14]%Z (tl source3) 0
                   (LoopState window0 [1; 2; 3]%Z [[126; 128]]%Z [[102; 104; 106]]%Z)
                   window1 [17; 18]%Z eq_refl eq_refl _ _)).
  - discriminate.
  - simpl; lia.
Defined.

(** C5 as stated fails on the code: a source window of another width is
    taken without an error as long as its last row has 2 columns to give,
    and the width of the model's output is not looked at when the source has
    a single element. *)
Lemma width_mismatch_unnoticed :
  (ncols window1_wide <> ncols window0 /\
   exists res,
     get_true_pred_recurrent stub_model stub_unscale source_wide = Ok res /\
     get_true_pred_recurrent stub_model stub_unscale source_wide <> Raise RuntimeError) /\
  (length (wide_model window0) <> ncols window0 - 2 /\
   exists res,
     get_true_pred_recurrent wide_model stub_unscale [(window0, [13; 14]%Z)] = Ok res /\
     get_true_pred_recurrent wide_model stub_unscale [(window0, [13; 14]%Z)]
       <> Raise RuntimeError).
Proof.
  split; (split; [discriminate|]); eexists; (split; [reflexivity | discriminate]).
Qed.

Lemma empty_source_raises_witness :
  1 <= length source3 /\
  length [[126; 128]; [134; 136]; [142; 144]]%Z = length source3 /\
  length [[120; 140]; [122; 160]; [124; 180]]%Z = length source3 /\
  [[126; 128]; [134; 136]; [142; 144]]%Z <> [] /\
  [[120; 140]; [122; 160]; [124; 180]]%Z <> [].
Proof.
  apply (proj2 (empty_source_raises Z stub_model stub_unscale) source3).
  reflexivity.
Defined.

(** ** Block extraction on a Result Sequence with [B = 2] *)

Definition result2 : list (vec Z) * list (vec Z) :=
  ([[126; 128]; [134; 136]; [142; 144]]%Z, [[120; 140]; [122; 160]; [124; 180]]%Z).

Example extract_block_1 :
  extract_block result2 1 = Ok ([126; 134; 142]%Z, [120; 122; 124]%Z).
Proof. reflexivity. Qed.

Example extract_block_3 : extract_block result2 3 = Raise IndexError.
Proof. reflexivity. Qed.

Example extract_block_minus_2 : extract_block result2 (-2) = Raise IndexError.
Proof. reflexivity. Qed.

Example extract_block_beyond_int64 :
  extract_block result2 (2 ^ 63 + 1) = Raise OverflowError /\
  extract_block result2 (- 2 ^ 63) = Raise OverflowError /\
  extract_block result2 (2 ^ 63) = Raise IndexError.
Proof. repeat split; vm_compute; reflexivity. Qed.

(** C7 as stated fails on the code: block numbers 0 and -1 are below 1 and
    the extractor returns series for them. *)
Lemma block_number_below_1_accepted :
  (0 < 1)%Z /\
  extract_block result2 0 = Ok ([128; 136; 144]%Z, [140; 160; 180]%Z) /\
  extract_block result2 0 <> Raise IndexError /\
  (-1 < 1)%Z /\
  extract_block result2 (-1) = Ok ([126; 134; 142]%Z, [120; 122; 124]%Z).
Proof.
  repeat split; try reflexivity; discriminate.
Qed.

Lemma block_extractor_contract_witness :
  (exists ts ps,
      extract_block result2 2 = Ok (ts, ps) /\
      length ts = 3 /\ length ps = 3 /\
      Forall2 (fun v t => nth_error v (Z.to_nat (2 - 1)) = Some t) (fst result2) ts /\
      Forall2 (fun v p => nth_error v (Z.to_nat (2 - 1)) = Some p) (snd result2) ps) /\
  (exists ts ps,
      extract_block result2 (-1) = Ok (ts, ps) /\
      length ts = 3 /\ length ps = 3 /\
      Forall2 (fun v t => nth_error v (Z.to_nat (2 + -1 - 1)) = Some t) (fst result2) ts /\
      Forall2 (fun v p => nth_error v (Z.to_nat (2 + -1 - 1)) = Some p) (snd result2) ps) /\
  extract_block result2 3 = Raise IndexError /\
  extract_block result2 (2 ^ 63 + 1) = Raise OverflowError.
Proof.
  assert (Ft : Forall (fun v : vec Z => length v = 2) (fst result2))
    by repeat constructor.
  assert (Fp : Forall (fun v : vec Z => length v = 2) (snd result2))
    by repeat constructor.
  split; [|split; [|split]].
  - apply (proj1 (block_extractor_contract Z 2 2 (fst result2) (snd result2)
                    Ft Fp eq_refl)).
    lia.
  - apply (proj1 (proj2 (block_extractor_contract Z 2 (-1) (fst result2) (snd result2)
                           Ft Fp eq_refl))).
    lia.
  - refine (proj1 (proj2 (proj2 (block_extractor_contract Z 2 3 (fst result2)
                                   (snd result2) Ft Fp eq_refl)) _ _) _).
    + right; simpl; lia.
    + discriminate.
    + lia.
  - refine (proj2 (proj2 (proj2 (block_extractor_contract Z 2 (2 ^ 63 + 1) (fst result2)
                                   (snd result2) Ft Fp eq_refl)) _ _) _).
    + right; simpl; lia.
    + discriminate.
    + right; lia.
Defined.

Lemma block_zero_reads_last_block_witness :
  exists ts ps,
    extract_block result2 0 = Ok (ts, ps) /\
    length ts = 3 /\ length ps = 3 /\
    Forall2 (fun v t => nth_error v (2 - 1) = Some t) (fst result2) ts /\
    Forall2 (fun v p => nth_error v (2 - 1) = Some p) (snd result2) ps.
Proof.
  apply (block_zero_reads_last_block Z 2 (fst result2) (snd result2)).
  - lia.
  - repeat constructor.
  - repeat constructor.
  - reflexivity.
Defined.

(** * Properties of the training loop *)

Section TrainingFacts.
Variable batch : Type.
Variable batch_size : batch -> nat.
Variable net : Type.
Variable train_batch : net -> batch -> net * pyfloat.
Variable eval_batch : net -> batch -> pyfloat.
Variable scheduler : Type.
Variable scheduler_step : scheduler -> net -> pyfloat -> scheduler * net.
Variable trial : Type.
Variable trial_report : trial -> pyfloat -> Z -> trial.
Variable trial_should_prune : trial -> bool * trial.

Local Abbreviation state := (train_state net scheduler trial).
Local Abbreviation training_pass := (@training_pass batch batch_size net train_batch).
Local Abbreviation calculate_test_loss :=
  (@calculate_test_loss batch batch_size net eval_batch).
Local Abbreviation epoch_val_total :=
  (@epoch_val_total batch batch_size net train_batch eval_batch scheduler trial).
Local Abbreviation epoch_val_mean :=
  (@epoch_val_mean batch batch_size net train_batch eval_batch scheduler trial).
Local Abbreviation epoch_body :=
  (@epoch_body batch batch_size net train_batch eval_batch scheduler scheduler_step
               trial trial_report trial_should_prune).
Local Abbreviation for_epochs :=
  (@for_epochs batch batch_size net train_batch eval_batch scheduler scheduler_step
               trial trial_report trial_should_prune).
Local Abbreviation train :=
  (@train batch batch_size net train_batch eval_batch scheduler scheduler_step
          trial trial_report trial_should_prune).

Lemma scheduler_metrics_app (l1 l2 : list event) :
  scheduler_metrics (l1 ++ l2) = scheduler_metrics l1 ++ scheduler_metrics l2.
Proof. apply flat_map_app. Qed.

Lemma trial_reports_app (l1 l2 : list event) :
  trial_reports (l1 ++ l2) = trial_reports l1 ++ trial_reports l2.
Proof. apply flat_map_app. Qed.

Ltac unfold_epoch :=
  unfold epoch_body, periodic_report;
  unfold then_, training_phase, truediv, append_train_loss,
    validation_phase, scheduler_hook, append_val_loss, trial_hook,
    emit, ret, raise.

Ltac log_simpl :=
  cbn [final_state ts_log val_losses train_losses ts_trial ts_scheduler ts_net];
  repeat rewrite ?scheduler_metrics_app, ?trial_reports_app;
  cbn [scheduler_metrics trial_reports flat_map app];
  repeat rewrite ?app_nil_r.

(** One epoch, with the two datasets not empty: what is left behind,
    however the epoch ends. *)
Lemma epoch_body_summary (cfg : config batch) (epoch : Z) (st : state) :
  dataset_len (train_loader cfg) <> 0 ->
  dataset_len (val_loader cfg) <> 0 ->
  let st' := final_state (epoch_body cfg epoch st) in
  scheduler_metrics (ts_log st') =
    scheduler_metrics (ts_log st) ++
    match ts_scheduler st with Some _ => [epoch_val_total cfg st] | None => [] end /\
  val_losses st' = val_losses st ++ [epoch_val_mean cfg st] /\
  trial_reports (ts_log st') =
    trial_reports (ts_log st) ++
    match ts_trial st with Some _ => [(epoch_val_mean cfg st, epoch)] | None => [] end /\
  length (train_losses st') = S (length (train_losses st)) /\
  (ts_scheduler st <> None -> ts_scheduler st' <> None).
Proof.
  intros Htrain Hval.
  unfold epoch_val_mean, epoch_val_total; unfold_epoch.
  destruct (training_pass (ts_net st) (train_loader cfg)) as [m train_loss] eqn:Epass.
  apply Nat.eqb_neq in Htrain, Hval. rewrite Htrain.
  cbn [ts_net ts_scheduler ts_trial train_losses val_losses ts_log fst].
  destruct (ts_scheduler st) as [s|];
    [destruct (scheduler_step s m (calculate_test_loss m (val_loader cfg))) as [s' m']|];
    cbn [ts_net ts_scheduler ts_trial train_losses val_losses ts_log];
    rewrite Hval;
    cbn [ts_net ts_scheduler ts_trial train_losses val_losses ts_log];
    (destruct (ts_trial st) as [t|];
     [destruct (trial_should_prune _) as [[|] t2]|]);
    cbn [ts_net ts_scheduler ts_trial train_losses val_losses ts_log];
    destruct (epoch_freq cfg =? 0)%Z, (epoch mod epoch_freq cfg =? 0)%Z,
      (plot_progress cfg), (print_progress cfg);
    log_simpl; rewrite ?length_app; cbn [length];
    repeat split; try reflexivity; try lia; try congruence.
Qed.

(** One epoch with a trial: how it ends. *)
Lemma epoch_body_outcome (cfg : config batch) (epoch : Z) (st : state) (t : trial) :
  dataset_len (train_loader cfg) <> 0 ->
  dataset_len (val_loader cfg) <> 0 ->
  epoch_freq cfg <> 0%Z ->
  ts_trial st = Some t ->
  let asked := trial_should_prune (trial_report t (epoch_val_mean cfg st) epoch) in
  exists st',
    epoch_body cfg epoch st =
      (if fst asked then Raised TrialPruned st' else Returned tt st') /\
    ts_trial st' = Some (snd asked) /\
    (fst asked = true ->
     exists log,
       ts_log st' =
         log ++ [TrialReport (epoch_val_mean cfg st) epoch; TrialShouldPrune true]).
Proof.
  intros Htrain Hval Hfreq Ht.
  unfold epoch_val_mean, epoch_val_total; unfold_epoch.
  destruct (training_pass (ts_net st) (train_loader cfg)) as [m train_loss] eqn:Epass.
  apply Nat.eqb_neq in Htrain, Hval. apply Z.eqb_neq in Hfreq.
  rewrite Htrain, Hfreq.
  cbn [ts_net ts_scheduler ts_trial train_losses val_losses ts_log fst].
  destruct (ts_scheduler st) as [s|];
    [destruct (scheduler_step s m (calculate_test_loss m (val_loader cfg))) as [s' m']|];
    cbn [ts_net ts_scheduler ts_trial train_losses val_losses ts_log];
    rewrite Hval;
    cbn [ts_net ts_scheduler ts_trial train_losses val_losses ts_log];
    rewrite Ht;
    destruct (trial_should_prune _) as [[|] t2];
    cbn [ts_net ts_scheduler ts_trial train_losses val_losses ts_log fst snd];
    try (eexists; split; [reflexivity|]; split; [reflexivity|];
         intros _; eexists; reflexivity);
    destruct (epoch mod epoch_freq cfg =? 0)%Z, (plot_progress cfg), (print_progress cfg);
    cbn [ts_net ts_scheduler ts_trial train_losses val_losses ts_log];
    (eexists; split; [reflexivity|]; split; [reflexivity|]; discriminate).
Qed.

Lemma for_epochs_cons (cfg : config batch) (epoch : Z) (epochs : list Z) (st : state) :
  for_epochs cfg (epoch :: epochs) st =
  match epoch_body cfg epoch st with
  | Returned _ st' => for_epochs cfg epochs st'
  | Raised e st' => Raised e st'
  end.
Proof. reflexivity. Qed.

Lemma epoch_range_two (n : Z) :
  (2 <= n)%Z -> exists later, epoch_range n = 1%Z :: 2%Z :: later.
Proof.
  intros Hn; unfold epoch_range.
  destruct (Z.to_nat n) as [|[|k]] eqn:E; try lia.
  eexists; reflexivity.
Qed.

(** Over a whole run with a scheduler, the validation history is the list
    of the metrics the scheduler was stepped with, each divided by the
    size of the validation dataset. *)
Lemma for_epochs_scheduler (cfg : config batch) (epochs : list Z) (st : state) :
  dataset_len (train_loader cfg) <> 0 ->
  dataset_len (val_loader cfg) <> 0 ->
  ts_scheduler st <> None ->
  let divide := fun v => (v / float_of_nat (dataset_len (val_loader cfg)))%float in
  map divide (scheduler_metrics (ts_log st)) = val_losses st ->
  let st' := final_state (for_epochs cfg epochs st) in
  map divide (scheduler_metrics (ts_log st')) = val_losses st'.
Proof.
  intros Htrain Hval Hs divide; revert st Hs.
  induction epochs as [|epoch epochs IH]; intros st Hs Hinv; [exact Hinv|].
  cbv zeta; rewrite for_epochs_cons.
  destruct (epoch_body_summary cfg epoch st Htrain Hval) as (Hm & Hv & _ & _ & Hs').
  destruct (ts_scheduler st) as [s|] eqn:Es; [|congruence].
  assert (Hnext : map divide
                      (scheduler_metrics (ts_log (final_state (epoch_body cfg epoch st)))) =
                  val_losses (final_state (epoch_body cfg epoch st))).
  { rewrite Hm, Hv, map_app. apply f_equal2; [exact Hinv | reflexivity]. }
  destruct (epoch_body cfg epoch st) as [u st1|e st1]; cbn [final_state] in *.
  - apply IH; [apply Hs'; discriminate | assumption].
  - assumption.
Qed.

(** *** The claims on the training loop *)

(** One epoch, with the two datasets not empty: the model, the scheduler
    and the trial it leaves behind, that is which calls were really made on
    them. *)
Lemma epoch_body_collaborators (cfg : config batch) (epoch : Z) (st : state) :
  dataset_len (train_loader cfg) <> 0 ->
  dataset_len (val_loader cfg) <> 0 ->
  let m := fst (training_pass (ts_net st) (train_loader cfg)) in
  let st' := final_state (epoch_body cfg epoch st) in
  (ts_net st', ts_scheduler st') =
    match ts_scheduler st with
    | Some s =>
        (snd (scheduler_step s m (epoch_val_total cfg st)),
         Some (fst (scheduler_step s m (epoch_val_total cfg st))))
    | None => (m, None)
    end /\
  ts_trial st' =
    match ts_trial st with
    | Some t =>
        Some (snd (trial_should_prune (trial_report t (epoch_val_mean cfg st) epoch)))
    | None => None
    end.
Proof.
  intros Htrain Hval.
  unfold epoch_val_mean, epoch_val_total; unfold_epoch.
  destruct (training_pass (ts_net st) (train_loader cfg)) as [m train_loss] eqn:Epass.
  apply Nat.eqb_neq in Htrain, Hval. rewrite Htrain.
  cbn [ts_net ts_scheduler ts_trial train_losses val_losses ts_log fst].
  destruct (ts_scheduler st) as [s|];
    [destruct (scheduler_step s m (calculate_test_loss m (val_loader cfg))) as [s' m']|];
    cbn [ts_net ts_scheduler ts_trial train_losses val_losses ts_log];
    rewrite Hval;
    cbn [ts_net ts_scheduler ts_trial train_losses val_losses ts_log];
    (destruct (ts_trial st) as [t|];
     [destruct (trial_should_prune _) as [[|] t2]|]);
    cbn [ts_net ts_scheduler ts_trial train_losses val_losses ts_log];
    destruct (epoch_freq cfg =? 0)%Z, (epoch mod epoch_freq cfg =? 0)%Z,
      (plot_progress cfg), (print_progress cfg);
    cbn [final_state ts_net ts_scheduler ts_trial fst snd];
    split; reflexivity.
Qed.

(** C9.  In an epoch run with a scheduler, the two datasets not being
    empty, the scheduler is stepped once, with the validation loss
    accumulated over the batches (loss times batch size, summed) before any
    division: the scheduler and the model the epoch leaves are those that
    one call of its step on that sum returns.  The value appended to the
    validation history, and reported to the trial when there is one, is
    that sum divided by the size of the validation dataset: the trial the
    epoch leaves is the one that was given this mean with the epoch number
    and then asked whether to prune.  The log of the calls says the same. *)
Theorem scheduler_steps_on_undivided_loss (cfg : config batch) (epoch : Z)
        (st : state) (s : scheduler) :
  ts_scheduler st = Some s ->
  dataset_len (train_loader cfg) <> 0 ->
  dataset_len (val_loader cfg) <> 0 ->
  let m := fst (training_pass (ts_net st) (train_loader cfg)) in
  let total :=
    fold_left (fun acc b => (acc + eval_batch m b * float_of_nat (batch_size b))%float)
              (batches (val_loader cfg)) 0%float in
  let mean := (total / float_of_nat (dataset_len (val_loader cfg)))%float in
  let st' := final_state (epoch_body cfg epoch st) in
  scheduler_metrics (ts_log st') = scheduler_metrics (ts_log st) ++ [total] /\
  val_losses st' = val_losses st ++ [mean] /\
  (forall t, ts_trial st = Some t ->
             trial_reports (ts_log st') = trial_reports (ts_log st) ++ [(mean, epoch)]) /\
  ts_scheduler st' <> None /\
  ts_scheduler st' = Some (fst (scheduler_step s m total)) /\
  ts_net st' = snd (scheduler_step s m total) /\
  (forall t, ts_trial st = Some t ->
             ts_trial st' =
             Some (snd (trial_should_prune (trial_report t mean epoch)))) /\
  (ts_trial st = None -> ts_trial st' = None).
Proof.
  intros Hs Htrain Hval.
  destruct (epoch_body_summary cfg epoch st Htrain Hval) as (Hm & Hv & Hr & _ & Hs').
  destruct (epoch_body_collaborators cfg epoch st Htrain Hval) as (Hreal & Htrial).
  rewrite Hs in Hm, Hreal. cbv zeta.
  split; [exact Hm|]. split; [exact Hv|]. split.
  { intros t Ht; rewrite Ht in Hr; exact Hr. }
  split; [apply Hs'; rewrite Hs; discriminate|].
  split; [exact (f_equal snd Hreal)|].
  split; [exact (f_equal fst Hreal)|].
  split.
  - intros t Ht; rewrite Ht in Htrial; exact Htrial.
  - intros Ht; rewrite Ht in Htrial; exact Htrial.
Qed.

(** C8.  With at least 2 epochs asked for, datasets that are not empty, a
    reporting frequency that is not 0, and a trial that answers
    [should_prune()] with false at epoch 1 and with true at epoch 2, [train]
    raises [TrialPruned], which is none of the other exceptions; at that
    point the training history has 2 entries, the validation history holds
    the means [v1] and [v2] of the two epochs, the trial has received
    [(v1, 1)] and [(v2, 2)], the last just before it was asked, and the run
    is the run of the epochs 1 and 2 alone. *)
Theorem pruned_after_epoch_two (cfg : config batch) (m : net)
        (s : option scheduler) (t0 : trial) :
  let st0 := TrainState m s (Some t0) [] [] [] in
  let v1 := epoch_val_mean cfg st0 in
  let asked1 := trial_should_prune (trial_report t0 v1 1) in
  let st1 := final_state (epoch_body cfg 1 st0) in
  let v2 := epoch_val_mean cfg st1 in
  let asked2 := trial_should_prune (trial_report (snd asked1) v2 2) in
  (2 <= num_epochs cfg)%Z ->
  dataset_len (train_loader cfg) <> 0 ->
  dataset_len (val_loader cfg) <> 0 ->
  epoch_freq cfg <> 0%Z ->
  fst asked1 = false ->
  fst asked2 = true ->
  exists st log,
    train cfg m s (Some t0) = Raised TrialPruned st /\
    length (train_losses st) = 2 /\
    val_losses st = [v1; v2] /\
    trial_reports (ts_log st) = [(v1, 1%Z); (v2, 2%Z)] /\
    ts_log st = log ++ [TrialReport v2 2; TrialShouldPrune true] /\
    train cfg m s (Some t0) = for_epochs cfg [1%Z; 2%Z] st0 /\
    TrialPruned <> IndexError /\ TrialPruned <> RuntimeError /\
    TrialPruned <> ZeroDivisionError.
Proof.
  intros st0 v1 asked1 st1 v2 asked2 Hn Htrain Hval Hfreq H1 H2.
  destruct (epoch_range_two _ Hn) as (later & Er).
  unfold train; rewrite Er. fold st0.
  destruct (epoch_body_outcome cfg 1 st0 t0 Htrain Hval Hfreq eq_refl)
    as (st1' & E1 & T1 & _).
  destruct (epoch_body_summary cfg 1 st0 Htrain Hval) as (_ & V1 & R1 & L1 & _).
  fold v1 in E1, T1, V1, R1. fold asked1 in E1, T1. fold st1 in V1, R1, L1.
  rewrite H1 in E1.
  assert (Est : st1' = st1) by (unfold st1; rewrite E1; reflexivity).
  subst st1'.
  destruct (epoch_body_outcome cfg 2 st1 _ Htrain Hval Hfreq T1)
    as (st2 & E2 & _ & G2).
  destruct (epoch_body_summary cfg 2 st1 Htrain Hval) as (_ & V2 & R2 & L2 & _).
  fold v2 in E2, G2, V2, R2. fold asked2 in E2, G2.
  rewrite H2 in E2. rewrite E2 in V2, R2, L2; cbn [final_state] in V2, R2, L2.
  destruct (G2 H2) as (log & Hlog).
  exists st2, log.
  rewrite !for_epochs_cons, E1, !for_epochs_cons, E2.
  split; [reflexivity|].
  split; [rewrite L2, L1; reflexivity|].
  split; [rewrite V2, V1; reflexivity|].
  split; [rewrite R2, R1, T1; reflexivity|].
  split; [exact Hlog|].
  repeat split; discriminate.
Qed.

End TrainingFacts.


(** ** A run pruned at epoch 2 *)

(** Stubs: a batch is its size, the model is one weight that an optimizer
    step halves and that is its own loss, the scheduler counts its steps, and
    the trial counts the times it was asked and answers true the second
    time. *)
Definition stub_train_batch (w : pyfloat) (b : nat) : pyfloat * pyfloat :=
  ((w * 0.5)%float, w).

Definition stub_eval_batch (w : pyfloat) (b : nat) : pyfloat := w.

Definition stub_scheduler_step (s : nat) (w : pyfloat) (metric : pyfloat)
  : nat * pyfloat := (S s, w).

Definition stub_trial_report (t : nat) (value : pyfloat) (epoch : Z) : nat := t.

Definition stub_trial_should_prune (t : nat) : bool * nat := (t =? 1, S t).

Definition stub_config : config nat :=
  Config (Loader [4; 4; 2] 8) (Loader [2; 2] 4) 5 1 true true.

Definition stub_train (s : option nat) (t : option nat) : run pyfloat nat nat unit :=
  train (fun b : nat => b) stub_train_batch stub_eval_batch stub_scheduler_step
        stub_trial_report stub_trial_should_prune stub_config 8%float s t.

Example stub_train_pruned :
  stub_train (Some 0) (Some 0) =
  Raised TrialPruned
    (TrainState 0.125%float (Some 2) (Some 2)
       [6.5%float; 0.8125%float] [1%float; 0.125%float]
       [SchedulerStep 4%float; TrialReport 1%float 1; TrialShouldPrune false;
        PlotLosses [6.5%float] [1%float]; Print 1 6.5%float 1%float;
        SchedulerStep 0.5%float; TrialReport 0.125%float 2; TrialShouldPrune true]).
Proof. vm_compute. reflexivity. Qed.

Example stub_train_completes_without_trial :
  match stub_train (Some 0) None with
  | Returned _ st => length (train_losses st) = 5 /\ length (scheduler_metrics (ts_log st)) = 5
  | Raised _ _ => False
  end.
Proof. vm_compute. split; reflexivity. Qed.

Lemma pruned_after_epoch_two_witness :
  exists st log,
    stub_train (Some 0) (Some 0) = Raised TrialPruned st /\
    length (train_losses st) = 2 /\
    val_losses st = [1%float; 0.125%float] /\
    trial_reports (ts_log st) = [(1%float, 1%Z); (0.125%float, 2%Z)] /\
    ts_log st = log ++ [TrialReport 0.125%float 2; TrialShouldPrune true] /\
    stub_train (Some 0) (Some 0) =
      for_epochs (fun b : nat => b) stub_train_batch stub_eval_batch stub_scheduler_step
                 stub_trial_report stub_trial_should_prune stub_config [1%Z; 2%Z]
                 (TrainState 8%float (Some 0) (Some 0) [] [] []) /\
    TrialPruned <> IndexError /\ TrialPruned <> RuntimeError /\
    TrialPruned <> ZeroDivisionError.
Proof.
  apply (pruned_after_epoch_two nat (fun b : nat => b) pyfloat stub_train_batch
           stub_eval_batch nat stub_scheduler_step nat stub_trial_report
           stub_trial_should_prune stub_config 8%float (Some 0) 0).
  - simpl; lia.
  - discriminate.
  - discriminate.
  - discriminate.
  - reflexivity.
  - reflexivity.
Defined.

(** Stubs that keep what they are given: a scheduler that records the
    metrics of its steps, and a trial that records its reports and asks for
    pruning once it has two. *)
Definition recording_scheduler_step (s : list pyfloat) (w : pyfloat) (metric : pyfloat)
  : list pyfloat * pyfloat := (s ++ [metric], w).

Definition recording_trial_report (t : list (pyfloat * Z)) (value : pyfloat) (epoch : Z)
  : list (pyfloat * Z) := t ++ [(value, epoch)].

Definition recording_trial_should_prune (t : list (pyfloat * Z))
  : bool * list (pyfloat * Z) := (length t =? 2, t).

Lemma scheduler_steps_on_undivided_loss_witness :
  let st := TrainState 8%float (Some []) (Some []) [] [] [] in
  let st' :=
    final_state
      (epoch_body (fun b : nat => b) stub_train_batch stub_eval_batch
                  recording_scheduler_step recording_trial_report
                  recording_trial_should_prune stub_config 1 st) in
  scheduler_metrics (ts_log st') = [4%float] /\
  val_losses st' = [1%float] /\
  trial_reports (ts_log st') = [(1%float, 1%Z)] /\
  ts_scheduler st' = Some [4%float] /\
  ts_net st' = 1%float /\
  ts_trial st' = Some [(1%float, 1%Z)].
Proof.
  pose proof (scheduler_steps_on_undivided_loss nat (fun b : nat => b) pyfloat
                stub_train_batch stub_eval_batch (list pyfloat) recording_scheduler_step
                (list (pyfloat * Z)) recording_trial_report recording_trial_should_prune
                stub_config 1
                (TrainState 8%float (Some []) (Some []) [] [] []) [] eq_refl
                ltac:(discriminate) ltac:(discriminate))
    as (Hm & Hv & Hr & _ & Hs & Hn & Ht & _).
  cbv zeta. split; [exact Hm|]. split; [exact Hv|]. split; [exact (Hr [] eq_refl)|].
  split; [exact Hs|]. split; [exact Hn|]. exact (Ht [] eq_refl).
Defined.


(** * Further properties of the rollout *)

(** The predictions of a rollout, without the true values. *)
Definition predictions {elt : Type}
           (r : result (list (vec elt) * list (vec elt))) : result (list (vec elt)) :=
  match r with
  | Ok (_, y_pred) => Ok y_pred
  | Raise e => Raise e
  end.

Section RolloutMore.
Variable elt : Type.
Variable model : matrix elt -> vec elt.
Variable unscale_temperature : vec elt -> vec elt.

Local Abbreviation loop_step := (loop_step model unscale_temperature).
Local Abbreviation loop_init := (loop_init model unscale_temperature).
Local Abbreviation next_state := (next_state model unscale_temperature).
Local Abbreviation run_items := (run_items model unscale_temperature).
Local Abbreviation rollout_state := (rollout_state model unscale_temperature).
Local Abbreviation get_true_pred_recurrent :=
  (get_true_pred_recurrent model unscale_temperature).
Local Abbreviation get_block_temperature_recurrent :=
  (get_block_temperature_recurrent model unscale_temperature).
Local Abbreviation spec_windows := (spec_windows model).
Local Abbreviation predictor_ok := (predictor_ok model).

Lemma run_items_true items st st' :
  run_items items st = Ok st' ->
  st_y_true st' =
  st_y_true st ++ map (fun it => unscale_temperature (snd it)) items.
Proof.
  revert st; induction items as [|[x y] items IH]; intros st H.
  - inversion H; subst; symmetry; apply app_nil_r.
  - rewrite run_items_cons in H.
    destruct (loop_step st (x, y)) as [st1|e] eqn:H1; cbn [bind] in H; [|discriminate].
    apply loop_step_inv in H1 as (_ & _ & ->).
    rewrite (IH _ H); unfold next_state; cbn [st_y_true map snd].
    rewrite <- app_assoc; reflexivity.
Qed.

Lemma run_items_raise_kind items st e :
  run_items items st = Raise e ->
  (e = IndexError /\ Exists (fun it => rows (fst it) = []) items) \/ e = RuntimeError.
Proof.
  revert st; induction items as [|[x y] items IH]; intros st H; [discriminate|].
  rewrite run_items_cons in H.
  destruct (rows x) as [|r rs] eqn:Hx.
  - rewrite loop_step_no_row in H by assumption; cbn [bind] in H.
    inversion H; left; split; [reflexivity|]. constructor; assumption.
  - assert (Hne : rows x <> []) by (rewrite Hx; discriminate).
    destruct (Nat.eq_dec (length (st_prediction st) + length (exogenous x))
                         (ncols (st_seq st))) as [Hw|Hw].
    + rewrite (loop_step_fits _ _ _ st x y Hne Hw) in H; cbn [bind] in H.
      destruct (IH _ H) as [[-> Hex] | ->]; [left|right; reflexivity].
      split; [reflexivity|]. apply Exists_cons_tl; assumption.
    + rewrite (loop_step_mismatch _ _ _ st x y Hne Hw) in H; cbn [bind] in H.
      inversion H; right; reflexivity.
Qed.

Lemma rollout_state_reached d k st :
  rollout_state d k = Ok st -> k < length d.
Proof.
  destruct k as [|k]; intros H.
  - destruct d; [discriminate | simpl; lia].
  - apply rollout_state_succ_inv in H as (_ & x & y & _ & Hn & _).
    apply nth_error_Some; congruence.
Qed.

(** X1.  Whatever the model and whatever the shapes, a rollout that returns
    gives the unscaled targets of the source, in order, as true values, and
    one prediction per element of the source. *)
Theorem rollout_true_values (d : dataset elt) (y_true y_pred : list (vec elt)) :
  get_true_pred_recurrent d = Ok (y_true, y_pred) ->
  y_true = map (fun it => unscale_temperature (snd it)) d /\
  length y_pred = length d.
Proof.
  destruct d as [|[w0 t0] rest]; [discriminate|]; intros H.
  rewrite get_true_pred_recurrent_items in H.
  destruct (run_items rest (loop_init (w0, t0))) as [st|e] eqn:E;
    cbn [bind] in H; [|discriminate].
  inversion H; subst; split.
  - rewrite (run_items_true _ _ _ E); reflexivity.
  - apply run_items_lists in E as (l1 & l2 & _ & -> & _ & N2).
    cbn [loop_init st_y_pred app length]. rewrite N2; reflexivity.
Qed.

(** X2.  The rollout is causal: when it returns over a source continued by
    further items, it returns over the source alone, with the results cut
    at the length of that source; and when it fails over the source alone,
    it fails alike however the source is continued. *)
Theorem rollout_prefix (d more : dataset elt) :
  d <> [] ->
  (forall y_true y_pred,
      get_true_pred_recurrent (d ++ more) = Ok (y_true, y_pred) ->
      get_true_pred_recurrent d =
        Ok (firstn (length d) y_true, firstn (length d) y_pred)) /\
  (forall e,
      get_true_pred_recurrent d = Raise e ->
      get_true_pred_recurrent (d ++ more) = Raise e).
Proof.
  destruct d as [|[w0 t0] rest]; [congruence|]; intros _.
  cbn [app]; rewrite !get_true_pred_recurrent_items, run_items_app.
  destruct (run_items rest (loop_init (w0, t0))) as [st1|e1] eqn:E1; cbn [bind]; split.
  - intros y_true y_pred H.
    destruct (run_items more st1) as [st|e] eqn:E2; cbn [bind] in H; [|discriminate].
    inversion H; subst.
    apply run_items_lists in E2 as (l1 & l2 & -> & -> & _).
    apply run_items_lists in E1 as (k1 & k2 & T1 & P1 & N1 & N2).
    assert (Lt : length (st_y_true st1) = length ((w0, t0) :: rest))
      by (rewrite T1; cbn [loop_init st_y_true app length]; lia).
    assert (Lp : length (st_y_pred st1) = length ((w0, t0) :: rest))
      by (rewrite P1; cbn [loop_init st_y_pred app length]; lia).
    rewrite <- Lt at 1. rewrite <- Lp.
    rewrite !firstn_app, !firstn_all, !Nat.sub_diag; cbn [firstn].
    rewrite !app_nil_r; reflexivity.
  - discriminate.
  - discriminate.
  - intros e H; exact H.
Qed.

(** X3.  The predictions never see the ground truth: two sources with the
    same first window whose later windows give the same [x[-1, -2:]], row by
    row, lead to the same predictions or to the same failure, whatever
    their targets and the other columns and rows of their windows. *)
Theorem predictions_ignore_ground_truth (w0 : matrix elt) (t0 t0' : vec elt)
        (rest rest' : list (matrix elt * vec elt)) :
  Forall2 (fun it it' => last_row_last2 (fst it) = last_row_last2 (fst it'))
          rest rest' ->
  predictions (get_true_pred_recurrent ((w0, t0) :: rest)) =
  predictions (get_true_pred_recurrent ((w0, t0') :: rest')).
Proof.
  intros Hexo; rewrite !get_true_pred_recurrent_items.
  assert (Hgen : forall st st',
             st_seq st = st_seq st' -> st_prediction st = st_prediction st' ->
             st_y_pred st = st_y_pred st' ->
             predictions (st1 <- run_items rest st ;; Ok (st_y_true st1, st_y_pred st1)) =
             predictions (st1 <- run_items rest' st' ;; Ok (st_y_true st1, st_y_pred st1))).
  { induction Hexo as [|[x y] [x' y'] rest rest' Hx _ IH]; intros st st' Hs Hp Hy.
    - cbn; congruence.
    - rewrite !run_items_cons. cbn [fst] in Hx.
      unfold loop_step.
      rewrite <- Hx, <- Hs, <- Hp, <- Hy.
      destruct (last_row_last2 x) as [v|e]; cbn [bind]; [|reflexivity].
      destruct (cat_rows (drop_first_row (st_seq st))
                         (unsqueeze0 (cat1 (st_prediction st) v))) as [w|e];
        cbn [bind]; [|reflexivity].
      apply IH; reflexivity. }
  apply Hgen; reflexivity.
Qed.

(** X4.  A window of the source that has no row, met at a step that is
    reached, makes the rollout fail with the [IndexError] of [x[-1, -2:]]. *)
Theorem window_without_row_raises (d : dataset elt) (k : nat) (st : loop_state elt)
        (x : matrix elt) (y : vec elt) :
  rollout_state d k = Ok st ->
  nth_error d (S k) = Some (x, y) ->
  rows x = [] ->
  get_true_pred_recurrent d = Raise IndexError.
Proof.
  intros H Hn Hx.
  assert (E : rollout_state d (S k) = Raise IndexError).
  { rewrite rollout_state_succ, H; cbn [bind].
    unfold loop_body, dataset_getitem, list_getitem; rewrite Hn; cbn [bind].
    apply loop_step_no_row; assumption. }
  rewrite get_true_pred_recurrent_state.
  rewrite (rollout_state_raise _ _ _ _ (S k) _ _ E); [reflexivity|].
  assert (S k < length d) by (apply nth_error_Some; congruence). lia.
Qed.

(** X5.  Whatever the source and the model, the window the loop carries
    keeps the width of [window_0], stays a well-formed tensor when
    [window_0] is one, and the prediction carried with it is always the
    output of the model on that very window. *)
Theorem carried_window_well_formed (w0 : matrix elt) (t0 : vec elt)
        (rest : list (matrix elt * vec elt)) (k : nat) (st : loop_state elt) :
  wf_matrix w0 ->
  rollout_state ((w0, t0) :: rest) k = Ok st ->
  ncols (st_seq st) = ncols w0 /\
  wf_matrix (st_seq st) /\
  st_prediction st = model (st_seq st).
Proof.
  intros Hwf; revert st; induction k as [|k IH]; intros st H.
  - inversion H; subst; cbn [loop_init st_seq st_prediction]; auto.
  - apply rollout_state_succ_inv in H as (prev & x & y & Eprev & _ & Hs).
    destruct (IH prev Eprev) as (Hc & Hw & _).
    apply loop_step_inv in Hs as (_ & Hlen & ->).
    unfold next_state, slide, wf_matrix in *; cbn [st_seq st_prediction ncols rows].
    split; [assumption|]. split; [|reflexivity].
    apply Forall_app; split.
    + destruct (rows (st_seq prev)); cbn [tl]; [constructor|].
      inversion Hw; assumption.
    + constructor; [|constructor]. rewrite length_app; exact Hlen.
Qed.

(** X6.  The rollout fails in two ways only: with [IndexError], on an empty
    source or on a window without a row, and with the [RuntimeError] of
    [torch.cat]. *)
Theorem rollout_failures (d : dataset elt) (e : exn) :
  get_true_pred_recurrent d = Raise e ->
  (e = IndexError /\ (d = [] \/ Exists (fun it => rows (fst it) = []) (tl d))) \/
  e = RuntimeError.
Proof.
  destruct d as [|[w0 t0] rest]; intros H.
  - inversion H; left; auto.
  - rewrite get_true_pred_recurrent_items in H.
    destruct (run_items rest (loop_init (w0, t0))) as [st|e'] eqn:E;
      cbn [bind] in H; [discriminate|].
    inversion H; subst e'.
    apply run_items_raise_kind in E as [[-> Hex] | ->]; [left|right; reflexivity].
    split; [reflexivity|]. right; exact Hex.
Qed.

End RolloutMore.

(** * Further properties of the block extractor *)

Section BlockMore.
Variable elt : Type.
Variable model : matrix elt -> vec elt.
Variable unscale_temperature : vec elt -> vec elt.

Local Abbreviation get_true_pred_recurrent :=
  (get_true_pred_recurrent model unscale_temperature).
Local Abbreviation get_block_temperature_recurrent :=
  (get_block_temperature_recurrent model unscale_temperature).
Local Abbreviation spec_windows := (spec_windows model).
Local Abbreviation predictor_ok := (predictor_ok model).

Lemma Forall2_nth_error_l {A B : Type} (R : A -> B -> Prop) (l : list A) (l' : list B)
      (i : nat) (a : A) :
  Forall2 R l l' -> nth_error l i = Some a ->
  exists b, nth_error l' i = Some b /\ R a b.
Proof.
  intros H; revert i; induction H as [|x y l l' Hxy _ IH]; intros [|i] Hn;
    cbn [nth_error] in *; try discriminate.
  - inversion Hn; subst; eauto.
  - apply IH; assumption.
Qed.

Lemma Forall2_functional {A B : Type} (R : A -> B -> Prop) (l : list A)
      (l1 l2 : list B) :
  (forall a b b', R a b -> R a b' -> b = b') ->
  Forall2 R l l1 -> Forall2 R l l2 -> l1 = l2.
Proof.
  intros Hf H1; revert l2; induction H1 as [|x y l l1 Hxy _ IH]; intros l2 H2;
    inversion H2; subst; [reflexivity|].
  f_equal; [eapply Hf; eassumption | apply IH; assumption].
Qed.

Lemma selected_block_positive (B : nat) (b : Z) :
  (1 <= b <= Z.of_nat B)%Z -> selected_block B b = Some (Z.to_nat (b - 1)).
Proof.
  intros Hb; unfold selected_block.
  destruct (Z.leb_spec 1 b), (Z.leb_spec b (Z.of_nat B)); try lia; reflexivity.
Qed.

Lemma spec_windows_shaped (L W : nat) (w0 : matrix elt) (t0 : vec elt)
      (rest : list (matrix elt * vec elt)) :
  1 <= L -> predictor_ok L W -> source_ok L W ((w0, t0) :: rest) ->
  Forall (shaped L W) (spec_windows w0 rest).
Proof.
  intros HL Hp Hsrc; apply Forall_forall; intros w Hin.
  apply In_nth_error in Hin as (i & Hi).
  assert (Hle : i <= length rest).
  { assert (i < length (spec_windows w0 rest)) by (apply nth_error_Some; congruence).
    rewrite length_spec_windows in *; lia. }
  destruct (rollout_state_spec elt model unscale_temperature L W w0 t0 rest i
              HL Hp Hsrc Hle) as (st & _ & Hsh & _ & Hw & _).
  rewrite Hi in Hw; inversion Hw; subst; assumption.
Qed.

(** X7.  Over a source of [L >= 1] by [W] windows with targets of [W - 2]
    values, a Predictor that answers [W - 2] values and an unscaling that
    keeps the length of a vector, the block extractor returns, for a block
    number [1 <= b <= W - 2], two series of the length of the source: at
    every step the value at position [b - 1] of the unscaled target, and of
    the unscaled output of the model on the window of that step. *)
Theorem block_series_of_rollout (L W : nat) (w0 : matrix elt) (t0 : vec elt)
        (rest : list (matrix elt * vec elt)) (b : Z) :
  let d := (w0, t0) :: rest in
  1 <= L -> source_ok L W d -> predictor_ok L W ->
  Forall (fun it => length (snd it) + 2 = W) d ->
  (forall v, length (unscale_temperature v) = length v) ->
  (1 <= b <= Z.of_nat W - 2)%Z ->
  exists ts ps,
    get_block_temperature_recurrent d b = Ok (ts, ps) /\
    length ts = length d /\ length ps = length d /\
    (forall i x y,
        nth_error d i = Some (x, y) ->
        nth_error ts i = nth_error (unscale_temperature y) (Z.to_nat (b - 1))) /\
    (forall i w,
        nth_error (spec_windows w0 rest) i = Some w ->
        nth_error ps i = nth_error (unscale_temperature (model w)) (Z.to_nat (b - 1))).
Proof.
  intros d HL Hsrc Hp Htgt Hun Hb; subst d.
  destruct (rollout_state_spec elt model unscale_temperature L W w0 t0 rest
              (length rest) HL Hp Hsrc (le_n _)) as (st & E & _ & _ & _ & Ht & Hq).
  rewrite rollout_state_items, firstn_all in E by apply le_n.
  rewrite firstn_all2 in Ht by (simpl; lia).
  rewrite firstn_all2 in Hq by (rewrite length_spec_windows; lia).
  assert (Ft : Forall (fun v => length v = W - 2) (st_y_true st)).
  { rewrite Ht; apply Forall_map. revert Htgt; apply Forall_impl.
    intros it Hit; cbv beta in *; rewrite Hun, <- Hit.
    symmetry; apply Nat.add_sub. }
  assert (Fp : Forall (fun v => length v = W - 2) (st_y_pred st)).
  { rewrite Hq; apply Forall_map.
    pose proof (spec_windows_shaped L W w0 t0 rest HL Hp Hsrc) as Hsh.
    revert Hsh; apply Forall_impl. intros w Hw; cbv beta; rewrite Hun.
    rewrite <- (Hp w Hw); symmetry; apply Nat.add_sub. }
  assert (Hlen : length (st_y_true st) = length (st_y_pred st)).
  { rewrite Ht, Hq, !length_map, length_spec_windows; reflexivity. }
  destruct (extract_block_selected elt (W - 2) b (Z.to_nat (b - 1))
              (st_y_true st) (st_y_pred st) Ft Fp Hlen
              (selected_block_positive (W - 2) b ltac:(lia)))
    as (ts & ps & Eb & F1 & F2).
  exists ts, ps.
  split.
  { rewrite get_block_temperature_recurrent_result,
      get_true_pred_recurrent_items, E; exact Eb. }
  split; [rewrite <- (Forall2_length F1), Ht, length_map; reflexivity|].
  split; [rewrite <- (Forall2_length F2), Hq, length_map, length_spec_windows;
          reflexivity|].
  split.
  - intros i x y Hn.
    assert (Hy : nth_error (st_y_true st) i = Some (unscale_temperature y)).
    { rewrite Ht, (nth_error_map (fun it => unscale_temperature (snd it))), Hn.
      reflexivity. }
    destruct (Forall2_nth_error_l _ _ _ i _ F1 Hy) as (t & Et & Rt).
    rewrite Et, Rt; reflexivity.
  - intros i w Hn.
    assert (Hw : nth_error (st_y_pred st) i = Some (unscale_temperature (model w))).
    { rewrite Hq, (nth_error_map (fun w => unscale_temperature (model w))), Hn.
      reflexivity. }
    destruct (Forall2_nth_error_l _ _ _ i _ F2 Hw) as (p & Ep & Rp).
    rewrite Ep, Rp; reflexivity.
Qed.

(** X8.  On a Result Sequence whose vectors all have length [B], the block
    numbers [b] and [b - B] are aliases for [1 <= b <= B]: the extractor
    returns the same two series for both. *)
Theorem block_number_alias (B : nat) (b : Z) (y_true y_pred : list (vec elt)) :
  Forall (fun v => length v = B) y_true ->
  Forall (fun v => length v = B) y_pred ->
  length y_true = length y_pred ->
  (1 <= b <= Z.of_nat B)%Z ->
  extract_block (y_true, y_pred) (b - Z.of_nat B) = extract_block (y_true, y_pred) b /\
  exists series, extract_block (y_true, y_pred) b = Ok series.
Proof.
  intros Ht Hp Hlen Hb.
  destruct (extract_block_selected elt B b (Z.to_nat (b - 1)) y_true y_pred Ht Hp Hlen
              (selected_block_positive B b Hb)) as (ts & ps & E & F1 & F2).
  destruct (extract_block_selected elt B (b - Z.of_nat B) (Z.to_nat (b - 1))
              y_true y_pred Ht Hp Hlen) as (ts' & ps' & E' & F1' & F2').
  { unfold selected_block.
    destruct (Z.leb_spec 1 (b - Z.of_nat B)); [lia|]; cbn [andb].
    destruct (Z.leb_spec (1 - Z.of_nat B) (b - Z.of_nat B)); [|lia].
    destruct (Z.leb_spec (b - Z.of_nat B) 0); [|lia]; cbn [andb].
    f_equal; lia. }
  assert (Hfun : forall (v : vec elt) (t t' : elt),
             nth_error v (Z.to_nat (b - 1)) = Some t ->
             nth_error v (Z.to_nat (b - 1)) = Some t' -> t = t') by congruence.
  rewrite (Forall2_functional _ _ _ _ Hfun F1' F1) in E'.
  rewrite (Forall2_functional _ _ _ _ Hfun F2' F2) in E'.
  split; [rewrite E, E'; reflexivity | eauto].
Qed.

End BlockMore.

(** * Further properties of the training loop *)

(** The plotting and printing events of a log, and a run without them. *)
Definition is_report (ev : event) : bool :=
  match ev with
  | PlotLosses _ _ | Print _ _ _ => true
  | _ => false
  end.

Definition without_reports (log : list event) : list event :=
  filter (fun ev => negb (is_report ev)) log.

Definition silence_state {net scheduler trial : Type}
           (st : train_state net scheduler trial) : train_state net scheduler trial :=
  TrainState (ts_net st) (ts_scheduler st) (ts_trial st)
             (train_losses st) (val_losses st) (without_reports (ts_log st)).

Definition silenced {net scheduler trial A : Type} (r : run net scheduler trial A)
  : run net scheduler trial A :=
  match r with
  | Returned a st => Returned a (silence_state st)
  | Raised e st => Raised e (silence_state st)
  end.

(** The same configuration with other reporting flags. *)
Definition with_flags {batch : Type} (cfg : config batch) (plot print : bool)
  : config batch :=
  Config (train_loader cfg) (val_loader cfg) (num_epochs cfg) (epoch_freq cfg)
         plot print.

Section TrainingMore.
Variable batch : Type.
Variable batch_size : batch -> nat.
Variable net : Type.
Variable train_batch : net -> batch -> net * pyfloat.
Variable eval_batch : net -> batch -> pyfloat.
Variable scheduler : Type.
Variable scheduler_step : scheduler -> net -> pyfloat -> scheduler * net.
Variable trial : Type.
Variable trial_report : trial -> pyfloat -> Z -> trial.
Variable trial_should_prune : trial -> bool * trial.

Local Abbreviation state := (train_state net scheduler trial).
Local Abbreviation training_pass := (@training_pass batch batch_size net train_batch).
Local Abbreviation calculate_test_loss :=
  (@calculate_test_loss batch batch_size net eval_batch).
Local Abbreviation epoch_val_total :=
  (@epoch_val_total batch batch_size net train_batch eval_batch scheduler trial).
Local Abbreviation epoch_val_mean :=
  (@epoch_val_mean batch batch_size net train_batch eval_batch scheduler trial).
Local Abbreviation epoch_body :=
  (@epoch_body batch batch_size net train_batch eval_batch scheduler scheduler_step
               trial trial_report trial_should_prune).
Local Abbreviation for_epochs :=
  (@for_epochs batch batch_size net train_batch eval_batch scheduler scheduler_step
               trial trial_report trial_should_prune).
Local Abbreviation train :=
  (@train batch batch_size net train_batch eval_batch scheduler scheduler_step
          trial trial_report trial_should_prune).

Ltac open_epoch :=
  unfold epoch_val_mean, epoch_val_total;
  unfold epoch_body, periodic_report;
  unfold then_, training_phase, truediv, append_train_loss,
    validation_phase, scheduler_hook, append_val_loss, trial_hook,
    emit, ret, raise.

Ltac fields :=
  cbn [final_state ts_net ts_scheduler ts_trial train_losses val_losses ts_log
       fst snd] in *.

Ltac logs :=
  repeat rewrite ?scheduler_metrics_app, ?trial_reports_app, ?length_app;
  cbn [scheduler_metrics trial_reports flat_map app length];
  repeat rewrite ?app_nil_r.

Lemma epoch_range_nonpositive (n : Z) : (n <= 0)%Z -> epoch_range n = [].
Proof.
  intros Hn; unfold epoch_range.
  replace (Z.to_nat n) with 0 by lia. reflexivity.
Qed.

Lemma epoch_range_first (n : Z) :
  (1 <= n)%Z -> exists later, epoch_range n = 1%Z :: later.
Proof.
  intros Hn; unfold epoch_range.
  destruct (Z.to_nat n) as [|k] eqn:E; [lia|]. eexists; reflexivity.
Qed.

Lemma length_epoch_range (n : Z) : length (epoch_range n) = Z.to_nat n.
Proof. unfold epoch_range; rewrite length_map, length_seq; reflexivity. Qed.

(** X9.  With an empty training dataset and at least one epoch asked for,
    [train] raises [ZeroDivisionError] in the first epoch, after the
    training pass and before any validation: both histories are empty, the
    scheduler was not stepped and the trial was not called. *)
Theorem empty_train_dataset_raises (cfg : config batch) (m : net)
        (s : option scheduler) (t : option trial) :
  dataset_len (train_loader cfg) = 0 ->
  (1 <= num_epochs cfg)%Z ->
  train cfg m s t =
  Raised ZeroDivisionError
         (TrainState (fst (training_pass m (train_loader cfg))) s t [] [] []).
Proof.
  intros Hlen Hn; destruct (epoch_range_first _ Hn) as (later & Er).
  unfold train; rewrite Er, for_epochs_cons.
  open_epoch; fields. rewrite Hlen; cbn [Nat.eqb].
  destruct (training_pass m (train_loader cfg)); reflexivity.
Qed.

(** X10.  With no epoch asked for ([num_epochs <= 0]) [train] returns at
    once: nothing is trained, stepped, reported or recorded. *)
Theorem no_epoch_no_effect (cfg : config batch) (m : net)
        (s : option scheduler) (t : option trial) :
  (num_epochs cfg <= 0)%Z ->
  train cfg m s t = Returned tt (TrainState m s t [] [] []).
Proof.
  intros Hn; unfold train; rewrite (epoch_range_nonpositive _ Hn); reflexivity.
Qed.

(** X11.  With an empty validation dataset, a training dataset that is not
    empty and at least one epoch asked for, [train] raises
    [ZeroDivisionError] in the first epoch, at the division of the validation
    loss: by then the training loss is recorded and the scheduler, when
    there is one, has been stepped, once and with the accumulated loss, so
    that the scheduler and the model left behind are those its step
    returned, while the validation history is empty and the trial has not
    been called. *)
Theorem empty_val_dataset_raises (cfg : config batch) (m : net)
        (s : option scheduler) (t : option trial) :
  dataset_len (train_loader cfg) <> 0 ->
  dataset_len (val_loader cfg) = 0 ->
  (1 <= num_epochs cfg)%Z ->
  let m1 := fst (training_pass m (train_loader cfg)) in
  let total := calculate_test_loss m1 (val_loader cfg) in
  exists st,
    train cfg m s t = Raised ZeroDivisionError st /\
    length (train_losses st) = 1 /\
    val_losses st = [] /\
    ts_trial st = t /\
    trial_reports (ts_log st) = [] /\
    scheduler_metrics (ts_log st) =
      match s with
      | Some _ => [epoch_val_total cfg (TrainState m s t [] [] [])]
      | None => []
      end /\
    (ts_net st, ts_scheduler st) =
      match s with
      | Some s0 =>
          (snd (scheduler_step s0 m1 total), Some (fst (scheduler_step s0 m1 total)))
      | None => (m1, None)
      end.
Proof.
  intros Htrain Hval Hn; destruct (epoch_range_first _ Hn) as (later & Er).
  apply Nat.eqb_neq in Htrain.
  unfold train; rewrite Er, for_epochs_cons.
  open_epoch; fields. rewrite Htrain, Hval; cbn [Nat.eqb].
  destruct (training_pass m (train_loader cfg)) as [m1 l1]; fields.
  destruct s as [s0|]; [destruct (scheduler_step s0 m1 _) as [s1 m2]|]; fields;
    eexists; (split; [reflexivity|]); fields; logs; repeat split; reflexivity.
Qed.

(** X12.  With [epoch_freq = 0], datasets that are not empty and at least
    one epoch asked for, [train] never gets past the first epoch: it raises
    [ZeroDivisionError] at [epoch % epoch_freq], or [TrialPruned] just before
    when there is a trial and it asks for it; either way both histories
    have one entry. *)
Theorem zero_frequency_raises (cfg : config batch) (m : net)
        (s : option scheduler) (t : option trial) :
  epoch_freq cfg = 0%Z ->
  dataset_len (train_loader cfg) <> 0 ->
  dataset_len (val_loader cfg) <> 0 ->
  (1 <= num_epochs cfg)%Z ->
  exists e st,
    train cfg m s t = Raised e st /\
    (e = ZeroDivisionError \/ (e = TrialPruned /\ t <> None)) /\
    length (train_losses st) = 1 /\ length (val_losses st) = 1.
Proof.
  intros Hfreq Htrain Hval Hn; destruct (epoch_range_first _ Hn) as (later & Er).
  apply Nat.eqb_neq in Htrain, Hval.
  unfold train; rewrite Er, for_epochs_cons.
  open_epoch; fields. rewrite Htrain, Hfreq; cbn [Z.eqb].
  destruct (training_pass m (train_loader cfg)) as [m1 l1]; fields.
  destruct s as [s0|]; [destruct (scheduler_step s0 m1 _) as [s1 m2]|]; fields;
    rewrite Hval; fields;
    (destruct t as [t0|]; [destruct (trial_should_prune _) as [[|] t1]|]); fields;
    do 2 eexists; (split; [reflexivity|]); fields;
    (split; [first [left; reflexivity | right; split; [reflexivity | discriminate]]
            | split; reflexivity]).
Qed.

(** Without a trial an epoch either completes, leaving no trial behind, or
    raises [ZeroDivisionError]. *)
Lemma epoch_body_no_trial (cfg : config batch) (epoch : Z) (st : state) :
  ts_trial st = None ->
  match epoch_body cfg epoch st with
  | Returned _ st' => ts_trial st' = None
  | Raised e _ => e = ZeroDivisionError
  end.
Proof.
  intros Ht; open_epoch.
  destruct (training_pass (ts_net st) (train_loader cfg)) as [m1 l1]; fields.
  destruct (dataset_len (train_loader cfg) =? 0); fields; [reflexivity|].
  destruct (ts_scheduler st) as [s0|];
    [destruct (scheduler_step s0 m1 _) as [s1 m2]|]; fields;
    (destruct (dataset_len (val_loader cfg) =? 0); fields; [reflexivity|]);
    rewrite Ht;
    destruct (epoch_freq cfg =? 0)%Z, (epoch mod epoch_freq cfg =? 0)%Z,
      (plot_progress cfg), (print_progress cfg); fields; reflexivity.
Qed.

(** X13.  Without a trial [train] never raises [TrialPruned]: the only
    exception it can raise is [ZeroDivisionError]. *)
Theorem no_trial_no_pruning (cfg : config batch) (m : net) (s : option scheduler)
        (e : exn) (st : state) :
  train cfg m s None = Raised e st -> e = ZeroDivisionError.
Proof.
  unfold train.
  assert (Hgen : forall epochs st0,
             ts_trial st0 = None ->
             for_epochs cfg epochs st0 = Raised e st -> e = ZeroDivisionError).
  { induction epochs as [|epoch epochs IH]; intros st0 Ht H; [discriminate|].
    rewrite for_epochs_cons in H.
    pose proof (epoch_body_no_trial cfg epoch st0 Ht) as Hep.
    destruct (epoch_body cfg epoch st0) as [u st1|e1 st1].
    - apply (IH st1 Hep H).
    - inversion H; congruence. }
  apply Hgen; reflexivity.
Qed.

(** An epoch without a trial, with datasets that are not empty and a
    frequency that is not 0, completes. *)
Lemma epoch_body_completes (cfg : config batch) (epoch : Z) (st : state) :
  ts_trial st = None ->
  dataset_len (train_loader cfg) <> 0 ->
  dataset_len (val_loader cfg) <> 0 ->
  epoch_freq cfg <> 0%Z ->
  exists st',
    epoch_body cfg epoch st = Returned tt st' /\
    ts_trial st' = None /\
    (ts_scheduler st = None -> ts_scheduler st' = None).
Proof.
  intros Ht Htrain Hval Hfreq.
  apply Nat.eqb_neq in Htrain, Hval. apply Z.eqb_neq in Hfreq.
  open_epoch.
  destruct (training_pass (ts_net st) (train_loader cfg)) as [m1 l1]; fields.
  rewrite Htrain, Hfreq; fields.
  destruct (ts_scheduler st) as [s0|];
    [destruct (scheduler_step s0 m1 _) as [s1 m2]|]; fields;
    rewrite Hval; fields; rewrite Ht;
    destruct (epoch mod epoch_freq cfg =? 0)%Z, (plot_progress cfg),
      (print_progress cfg); fields;
    eexists; (split; [reflexivity|]); fields; split; congruence.
Qed.

(** What one whole epoch does to the model and to the scheduler: a
    training pass, then, with a scheduler, one step of it on the validation
    loss accumulated by the model the pass left. *)
Definition epoch_effect (cfg : config batch) (ms : net * option scheduler)
  : net * option scheduler :=
  let m1 := fst (training_pass (fst ms) (train_loader cfg)) in
  match snd ms with
  | Some s0 =>
      let stepped := scheduler_step s0 m1 (calculate_test_loss m1 (val_loader cfg)) in
      (snd stepped, Some (fst stepped))
  | None => (m1, None)
  end.

(** X14.  Without a trial, with datasets that are not empty and a reporting
    frequency that is not 0, [train] completes: both histories have one
    entry per epoch asked for, and the scheduler, when there is one, has
    been stepped once per epoch and otherwise never: the model and the
    scheduler [train] leaves are those that come out of as many rounds of
    one training pass followed by one step of the scheduler on the
    accumulated validation loss. *)
Theorem train_completes (cfg : config batch) (m : net) (s : option scheduler) :
  dataset_len (train_loader cfg) <> 0 ->
  dataset_len (val_loader cfg) <> 0 ->
  epoch_freq cfg <> 0%Z ->
  exists st,
    train cfg m s None = Returned tt st /\
    length (train_losses st) = Z.to_nat (num_epochs cfg) /\
    length (val_losses st) = Z.to_nat (num_epochs cfg) /\
    length (scheduler_metrics (ts_log st)) =
      match s with Some _ => Z.to_nat (num_epochs cfg) | None => 0 end /\
    (ts_net st, ts_scheduler st) =
      Nat.iter (Z.to_nat (num_epochs cfg)) (epoch_effect cfg) (m, s).
Proof.
  intros Htrain Hval Hfreq; unfold train.
  rewrite <- (length_epoch_range (num_epochs cfg)).
  assert (Hgen : forall epochs st0,
             ts_trial st0 = None ->
             exists st,
               for_epochs cfg epochs st0 = Returned tt st /\
               length (train_losses st) = length (train_losses st0) + length epochs /\
               length (val_losses st) = length (val_losses st0) + length epochs /\
               length (scheduler_metrics (ts_log st)) =
                 length (scheduler_metrics (ts_log st0)) +
                 match ts_scheduler st0 with Some _ => length epochs | None => 0 end /\
               (ts_net st, ts_scheduler st) =
                 Nat.iter (length epochs) (epoch_effect cfg)
                          (ts_net st0, ts_scheduler st0)).
  { induction epochs as [|epoch epochs IH]; intros st0 Ht.
    - exists st0; cbn [length Nat.iter nat_rect]. rewrite !Nat.add_0_r.
      destruct (ts_scheduler st0); auto.
    - destruct (epoch_body_completes cfg epoch st0 Ht Htrain Hval Hfreq)
        as (st1 & E1 & Ht1 & Hs1).
      pose proof (epoch_body_summary _ batch_size _ train_batch eval_batch _
                    scheduler_step _ trial_report trial_should_prune
                    cfg epoch st0 Htrain Hval) as (Hm & Hv & _ & Hl & Hs).
      pose proof (epoch_body_collaborators _ batch_size _ train_batch eval_batch _
                    scheduler_step _ trial_report trial_should_prune
                    cfg epoch st0 Htrain Hval) as (Hreal & _).
      rewrite E1 in Hm, Hv, Hl, Hs, Hreal; fields.
      destruct (IH st1 Ht1) as (st & E & Ltl & Lvl & Lm & Hit).
      exists st. rewrite for_epochs_cons, E1. split; [assumption|].
      assert (Hnext : (ts_net st1, ts_scheduler st1) =
                      epoch_effect cfg (ts_net st0, ts_scheduler st0)).
      { rewrite Hreal; unfold epoch_effect, epoch_val_total; fields.
        destruct (ts_scheduler st0); reflexivity. }
      split; [|split; [|split]].
      + rewrite Ltl, Hl; cbn [length]; lia.
      + rewrite Lvl, Hv, length_app; cbn [length]; lia.
      + rewrite Lm, Hm, length_app.
        destruct (ts_scheduler st0) as [s0|] eqn:Es.
        * destruct (ts_scheduler st1);
            [|exfalso; apply Hs; [discriminate | reflexivity]].
          cbn [length]; lia.
        * rewrite (Hs1 eq_refl); cbn [length]; lia.
      + rewrite Hit, Hnext. cbn [length]. symmetry; apply Nat.iter_succ_r. }
  destruct (Hgen (epoch_range (num_epochs cfg)) (TrainState m s None [] [] []) eq_refl)
    as (st & E & Ltl & Lvl & Lm & Hit).
  exists st; fields. cbn [length scheduler_metrics flat_map] in *.
  repeat split; assumption.
Qed.

(** The model and the scheduler that come out of stepping the scheduler
    with the given metrics, one epoch after the other: before each step the
    model goes through a training pass. *)
Definition replay_scheduler (cfg : config batch) (metrics : list pyfloat)
           (ms : net * scheduler) : net * scheduler :=
  fold_left
    (fun ms v =>
       let stepped :=
         scheduler_step (snd ms) (fst (training_pass (fst ms) (train_loader cfg))) v in
       (snd stepped, fst stepped))
    metrics ms.

(** X15.  With a scheduler and datasets that are not empty, however [train]
    ends, the validation history it leaves is the list of the metrics the
    scheduler was stepped with, each divided by the size of the validation
    dataset: the scheduler has seen every recorded loss, before its
    division.  These metrics are the values its step really received: the
    scheduler and the model [train] leaves are those that come out of
    stepping the scheduler with exactly these values, in order, once per
    epoch. *)
Theorem scheduler_saw_every_val_loss (cfg : config batch) (m : net) (s : scheduler)
        (t : option trial) :
  dataset_len (train_loader cfg) <> 0 ->
  dataset_len (val_loader cfg) <> 0 ->
  let st := final_state (train cfg m (Some s) t) in
  val_losses st =
    map (fun v => (v / float_of_nat (dataset_len (val_loader cfg)))%float)
        (scheduler_metrics (ts_log st)) /\
  (ts_net st, ts_scheduler st) =
    (fst (replay_scheduler cfg (scheduler_metrics (ts_log st)) (m, s)),
     Some (snd (replay_scheduler cfg (scheduler_metrics (ts_log st)) (m, s)))).
Proof.
  intros Htrain Hval st; subst st; unfold train; split.
  - symmetry.
    apply (for_epochs_scheduler _ batch_size _ train_batch eval_batch _ scheduler_step
             _ trial_report trial_should_prune cfg
             (epoch_range (num_epochs cfg)) (TrainState m (Some s) t [] [] [])
             Htrain Hval); [discriminate | reflexivity].
  - assert (Hgen : forall epochs st0 s0,
               ts_scheduler st0 = Some s0 ->
               let st := final_state (for_epochs cfg epochs st0) in
               exists added,
                 scheduler_metrics (ts_log st) =
                   scheduler_metrics (ts_log st0) ++ added /\
                 (ts_net st, ts_scheduler st) =
                   (fst (replay_scheduler cfg added (ts_net st0, s0)),
                    Some (snd (replay_scheduler cfg added (ts_net st0, s0))))).
    { induction epochs as [|epoch epochs IH]; intros st0 s0 Hs.
      - exists []; cbn. rewrite app_nil_r, Hs; auto.
      - cbv zeta; rewrite for_epochs_cons.
        pose proof (epoch_body_summary _ batch_size _ train_batch eval_batch _
                      scheduler_step _ trial_report trial_should_prune
                      cfg epoch st0 Htrain Hval) as (Hm & _).
        pose proof (epoch_body_collaborators _ batch_size _ train_batch eval_batch _
                      scheduler_step _ trial_report trial_should_prune
                      cfg epoch st0 Htrain Hval) as (Hreal & _).
        rewrite Hs in Hm, Hreal.
        destruct (epoch_body cfg epoch st0) as [u st1|e st1]; fields.
        + inversion Hreal as [[Hnet Hsch]].
          destruct (IH st1 _ Hsch) as (added & Ha & Hb).
          exists (epoch_val_total cfg st0 :: added).
          cbv zeta in Ha, Hb. rewrite Ha, Hb, Hm, <- app_assoc. split; [reflexivity|].
          rewrite Hnet; reflexivity.
        + exists [epoch_val_total cfg st0].
          split; [exact Hm|]. rewrite Hreal; reflexivity. }
    destruct (Hgen (epoch_range (num_epochs cfg))
                   (TrainState m (Some s) t [] [] []) s eq_refl) as (added & Ha & Hb).
    cbv zeta in Ha, Hb; fields. cbn [scheduler_metrics flat_map app] in Ha.
    rewrite Ha; exact Hb.
Qed.

(** What an epoch does to the histories and to the reports of the trial,
    whatever the configuration: it raises without touching the validation
    history and the trial, or it records the validation mean and, when
    there is a trial, reports it. *)
Lemma epoch_body_histories (cfg : config batch) (epoch : Z) (st : state) :
  let r := epoch_body cfg epoch st in
  let st' := final_state r in
  (ts_trial st <> None -> ts_trial st' <> None) /\
  (((exists e, r = Raised e st') /\
    val_losses st' = val_losses st /\
    trial_reports (ts_log st') = trial_reports (ts_log st) /\
    length (train_losses st) <= length (train_losses st') <=
      S (length (train_losses st)))
   \/
   (val_losses st' = val_losses st ++ [epoch_val_mean cfg st] /\
    trial_reports (ts_log st') =
      trial_reports (ts_log st) ++
      match ts_trial st with
      | Some _ => [(epoch_val_mean cfg st, epoch)]
      | None => []
      end /\
    length (train_losses st') = S (length (train_losses st)))).
Proof.
  open_epoch.
  destruct (training_pass (ts_net st) (train_loader cfg)) as [m1 l1]; fields.
  destruct (dataset_len (train_loader cfg) =? 0); fields.
  { split; [auto|]. left. split; [eexists; reflexivity|]. repeat split; lia. }
  destruct (ts_scheduler st) as [s0|];
    [destruct (scheduler_step s0 m1 _) as [s1 m2]|]; fields;
    (destruct (dataset_len (val_loader cfg) =? 0); fields;
     [split; [auto|]; left; split; [eexists; reflexivity|]; logs;
      repeat split; lia|]);
    (destruct (ts_trial st) as [t0|];
     [destruct (trial_should_prune _) as [[|] t1]|]); fields;
    destruct (epoch_freq cfg =? 0)%Z, (epoch mod epoch_freq cfg =? 0)%Z,
      (plot_progress cfg), (print_progress cfg); fields;
    (split; [intros; discriminate || assumption|]); right; logs;
    repeat split; lia.
Qed.

Lemma combine_app_longer {A B : Type} (l : list A) (p q : list B) :
  length l = length p -> combine l (p ++ q) = combine l p.
Proof.
  revert p; induction l as [|a l IH]; intros [|b p] H; cbn in *; try lia;
    try reflexivity.
  f_equal; apply IH; lia.
Qed.

Lemma combine_snoc {A B : Type} (l : list A) (p : list B) (a : A) (b : B) :
  length l = length p -> combine (l ++ [a]) (p ++ [b]) = combine l p ++ [(a, b)].
Proof.
  revert p; induction l as [|a' l IH]; intros [|b' p] H; cbn in *; try lia;
    try reflexivity.
  f_equal; apply IH; lia.
Qed.

(** What an epoch does to the trial, whatever the configuration: nothing,
    with nothing reported, or one report followed by the question whether
    to prune. *)
Lemma epoch_body_trial_state (cfg : config batch) (epoch : Z) (st : state) (t : trial) :
  ts_trial st = Some t ->
  let st' := final_state (epoch_body cfg epoch st) in
  (trial_reports (ts_log st') = trial_reports (ts_log st) /\ ts_trial st' = Some t) \/
  (exists v,
      trial_reports (ts_log st') = trial_reports (ts_log st) ++ [(v, epoch)] /\
      ts_trial st' = Some (snd (trial_should_prune (trial_report t v epoch)))).
Proof.
  intros Ht; open_epoch.
  destruct (training_pass (ts_net st) (train_loader cfg)) as [m1 l1]; fields.
  destruct (dataset_len (train_loader cfg) =? 0); fields; [left; auto|].
  destruct (ts_scheduler st) as [s0|];
    [destruct (scheduler_step s0 m1 _) as [s1 m2]|]; fields;
    (destruct (dataset_len (val_loader cfg) =? 0); fields;
     [left; logs; auto|]);
    rewrite Ht;
    destruct (trial_should_prune _) as [[|] t1] eqn:Eq; fields;
    destruct (epoch_freq cfg =? 0)%Z, (epoch mod epoch_freq cfg =? 0)%Z,
      (plot_progress cfg), (print_progress cfg); fields;
    right; eexists; logs; rewrite Eq; split; reflexivity.
Qed.

(** The trial that comes out of the given reports, each followed by the
    question whether to prune. *)
Definition replay_trial (reports : list (pyfloat * Z)) (t : trial) : trial :=
  fold_left
    (fun t ve => snd (trial_should_prune (trial_report t (fst ve) (snd ve))))
    reports t.

(** X16.  With a trial, however [train] ends, the reports the trial has
    received are the entries of the validation history, in order, each
    with the number of its epoch, counted from 1.  These reports are the
    calls really made: the trial [train] leaves is the one that comes out
    of receiving exactly these reports, in order, each followed by the
    question whether to prune. *)
Theorem trial_reports_follow_history (cfg : config batch) (m : net)
        (s : option scheduler) (t0 : trial) :
  let st := final_state (train cfg m s (Some t0)) in
  trial_reports (ts_log st) =
    combine (val_losses st) (epoch_range (num_epochs cfg)) /\
  ts_trial st = Some (replay_trial (trial_reports (ts_log st)) t0).
Proof.
  cbv zeta; unfold train; split.
  - assert (Hgen : forall epochs done st0,
               ts_trial st0 <> None ->
               length (val_losses st0) = length done ->
               trial_reports (ts_log st0) = combine (val_losses st0) done ->
               trial_reports (ts_log (final_state (for_epochs cfg epochs st0))) =
               combine (val_losses (final_state (for_epochs cfg epochs st0)))
                       (done ++ epochs)).
    { induction epochs as [|epoch epochs IH]; intros done st0 Ht Hlen Hrep.
      - rewrite app_nil_r; exact Hrep.
      - rewrite for_epochs_cons.
        destruct (epoch_body_histories cfg epoch st0) as (Hkeep & [Hstop | Hgo]).
        + destruct Hstop as ((e & Er) & Hv & Hr & _).
          rewrite Er in *; fields.
          rewrite Hv, Hr, Hrep. symmetry; apply combine_app_longer; assumption.
        + destruct Hgo as (Hv & Hr & _).
          destruct (ts_trial st0) as [t|] eqn:Et; [|congruence].
          assert (Hnext :
                    trial_reports (ts_log (final_state (epoch_body cfg epoch st0))) =
                    combine (val_losses (final_state (epoch_body cfg epoch st0)))
                            (done ++ [epoch])).
          { rewrite Hv, Hr, Hrep. symmetry; apply combine_snoc; assumption. }
          assert (Hlen' :
                    length (val_losses (final_state (epoch_body cfg epoch st0))) =
                    length (done ++ [epoch])).
          { rewrite Hv, !length_app; cbn [length]; lia. }
          replace (done ++ epoch :: epochs) with ((done ++ [epoch]) ++ epochs)
            by (rewrite <- app_assoc; reflexivity).
          destruct (epoch_body cfg epoch st0) as [u st1|e st1]; fields.
          * apply IH; [apply Hkeep; discriminate | assumption | assumption].
          * rewrite Hnext. symmetry; apply combine_app_longer; assumption. }
    apply (Hgen (epoch_range (num_epochs cfg)) [] (TrainState m s (Some t0) [] [] []));
      [discriminate | reflexivity | reflexivity].
  - assert (Hgen : forall epochs st0 t,
               ts_trial st0 = Some t ->
               let st := final_state (for_epochs cfg epochs st0) in
               exists added,
                 trial_reports (ts_log st) = trial_reports (ts_log st0) ++ added /\
                 ts_trial st = Some (replay_trial added t)).
    { induction epochs as [|epoch epochs IH]; intros st0 t Ht.
      - exists []; cbn. rewrite app_nil_r; auto.
      - cbv zeta; rewrite for_epochs_cons.
        destruct (epoch_body_trial_state cfg epoch st0 t Ht)
          as [(Hr & Ht1) | (v & Hr & Ht1)];
          destruct (epoch_body cfg epoch st0) as [u st1|e st1]; fields.
        + destruct (IH st1 t Ht1) as (added & Ha & Hb).
          exists added; cbv zeta in Ha, Hb. rewrite Ha, Hr; auto.
        + exists []; rewrite app_nil_r; auto.
        + destruct (IH st1 _ Ht1) as (added & Ha & Hb).
          exists ((v, epoch) :: added); cbv zeta in Ha, Hb.
          rewrite Ha, Hr, <- app_assoc; auto.
        + exists [(v, epoch)]; auto. }
    destruct (Hgen (epoch_range (num_epochs cfg))
                   (TrainState m s (Some t0) [] [] []) t0 eq_refl) as (added & Ha & Hb).
    cbv zeta in Ha, Hb; fields. cbn [trial_reports flat_map app] in Ha.
    rewrite Ha; exact Hb.
Qed.

(** X17.  When [train] returns, both histories have exactly one entry per
    epoch asked for; when it raises, the training history has as many
    entries as the validation history or one more, and no more than the
    number of epochs asked for. *)
Theorem history_lengths (cfg : config batch) (m : net)
        (s : option scheduler) (t : option trial) :
  match train cfg m s t with
  | Returned _ st =>
      length (train_losses st) = Z.to_nat (num_epochs cfg) /\
      length (val_losses st) = Z.to_nat (num_epochs cfg)
  | Raised _ st =>
      length (val_losses st) <= length (train_losses st) <= S (length (val_losses st)) /\
      length (train_losses st) <= Z.to_nat (num_epochs cfg)
  end.
Proof.
  unfold train; rewrite <- (length_epoch_range (num_epochs cfg)).
  assert (Hgen : forall epochs st0 k,
             length (train_losses st0) = k -> length (val_losses st0) = k ->
             match for_epochs cfg epochs st0 with
             | Returned _ st =>
                 length (train_losses st) = k + length epochs /\
                 length (val_losses st) = k + length epochs
             | Raised _ st =>
                 length (val_losses st) <= length (train_losses st)
                   <= S (length (val_losses st)) /\
                 length (train_losses st) <= k + length epochs
             end).
  { induction epochs as [|epoch epochs IH]; intros st0 k Htl Hvl.
    - cbn; lia.
    - rewrite for_epochs_cons.
      destruct (epoch_body_histories cfg epoch st0) as (_ & [Hstop | Hgo]).
      + destruct Hstop as ((e & Er) & Hv & _ & Hl).
        rewrite Er in *; fields. rewrite Hv; cbn [length]; lia.
      + destruct Hgo as (Hv & _ & Hl).
        destruct (epoch_body cfg epoch st0) as [u st1|e st1]; fields.
        * specialize (IH st1 (S k)).
          rewrite Hv, length_app in IH; cbn [length] in IH.
          specialize (IH ltac:(lia) ltac:(lia)).
          destruct (for_epochs cfg epochs st1); cbn [length]; lia.
        * rewrite Hv, length_app; cbn [length]; lia. }
  apply (Hgen (epoch_range (num_epochs cfg)) (TrainState m s t [] [] []) 0);
    reflexivity.
Qed.

Lemma without_reports_app (l1 l2 : list event) :
  without_reports (l1 ++ l2) = without_reports l1 ++ without_reports l2.
Proof. apply filter_app. Qed.

Lemma epoch_body_silenced (cfg : config batch) (plot print : bool) (epoch : Z)
      (st st' : state) :
  silence_state st = silence_state st' ->
  silenced (epoch_body (with_flags cfg plot print) epoch st) =
  silenced (epoch_body (with_flags cfg false false) epoch st').
Proof.
  destruct st as [m0 s0 t0 tl vl log], st' as [m0' s0' t0' tl' vl' log'].
  unfold silence_state; fields; intros H; inversion H; subst; clear H.
  open_epoch; unfold with_flags;
    cbn [train_loader val_loader num_epochs epoch_freq plot_progress print_progress];
    fields.
  destruct (training_pass m0' (train_loader cfg)) as [m1 l1]; fields.
  destruct (dataset_len (train_loader cfg) =? 0); fields;
    [unfold silenced, silence_state; fields; congruence|].
  destruct s0' as [s|]; [destruct (scheduler_step s m1 _) as [s1 m2]|]; fields;
    (destruct (dataset_len (val_loader cfg) =? 0); fields;
     [unfold silenced, silence_state; fields;
      rewrite ?without_reports_app; congruence|]);
    (destruct t0' as [t|]; [destruct (trial_should_prune _) as [[|] t1]|]); fields;
    destruct (epoch_freq cfg =? 0)%Z, (epoch mod epoch_freq cfg =? 0)%Z,
      plot, print; fields;
    unfold silenced, silence_state; fields;
    rewrite ?without_reports_app;
    cbn [without_reports filter is_report negb app];
    rewrite ?app_nil_r; congruence.
Qed.

(** X18.  Plotting and printing are observational: with the reporting flags
    set or not, [train] ends the same way, returning or raising the same
    exception, with the same model, scheduler, trial and histories and the
    same calls to the scheduler and the trial; only the plot and print
    events differ. *)
Theorem reporting_is_observational (cfg : config batch) (plot print : bool)
        (m : net) (s : option scheduler) (t : option trial) :
  silenced (train (with_flags cfg plot print) m s t) =
  silenced (train (with_flags cfg false false) m s t).
Proof.
  unfold train, with_flags at 1 3; cbn [num_epochs].
  assert (Hgen : forall epochs st st',
             silence_state st = silence_state st' ->
             silenced (for_epochs (with_flags cfg plot print) epochs st) =
             silenced (for_epochs (with_flags cfg false false) epochs st')).
  { induction epochs as [|epoch epochs IH]; intros st st' H.
    - cbn; congruence.
    - rewrite !for_epochs_cons.
      pose proof (epoch_body_silenced cfg plot print epoch st st' H) as Hep.
      destruct (epoch_body (with_flags cfg plot print) epoch st) as [u st1|e st1],
        (epoch_body (with_flags cfg false false) epoch st') as [u' st1'|e' st1'];
        cbn [silenced] in Hep; try discriminate.
      + apply IH; congruence.
      + cbn [silenced]; congruence. }
  apply Hgen; reflexivity.
Qed.

End TrainingMore.



(** ** The further properties on the stubs *)

(** A source with the first window and the exogenous columns of [source3]
    and everything else changed: other targets, other prediction columns,
    other rows, another width. *)
Definition source3_disguised : dataset Z :=
  [(window0, [0; 0]%Z);
   (Matrix 4 [[0; 0; 0; 0]; [99; 98; 15; 16]]%Z, [1; 1; 1]%Z);
   (Matrix 6 [[7; 7; 7; 7; 19; 20]]%Z, []%Z)].

(** A source whose second window has no row. *)
Definition source_no_row : dataset Z :=
  [(window0, [13; 14]%Z); (Matrix 4 [], [17; 18]%Z)].

Lemma rollout_true_values_witness :
  [[126; 128]; [134; 136]; [142; 144]]%Z =
    map (fun it => stub_unscale (snd it)) source3 /\
  length [[120; 140]; [122; 160]; [124; 180]]%Z = length source3.
Proof.
  apply (rollout_true_values Z stub_model stub_unscale source3); reflexivity.
Defined.

Lemma rollout_prefix_witness :
  get_true_pred_recurrent stub_model stub_unscale (firstn 2 source3) =
    Ok (firstn 2 [[126; 128]; [134; 136]; [142; 144]]%Z,
        firstn 2 [[120; 140]; [122; 160]; [124; 180]]%Z) /\
  get_true_pred_recurrent wide_model stub_unscale (firstn 2 source3 ++ skipn 2 source3) =
    Raise RuntimeError.
Proof.
  assert (Hne : firstn 2 source3 <> []) by discriminate.
  split.
  - apply (proj1 (rollout_prefix Z stub_model stub_unscale (firstn 2 source3)
                    (skipn 2 source3) Hne)); reflexivity.
  - apply (proj2 (rollout_prefix Z wide_model stub_unscale (firstn 2 source3)
                    (skipn 2 source3) Hne)); reflexivity.
Defined.

Lemma predictions_ignore_ground_truth_witness :
  predictions (get_true_pred_recurrent stub_model stub_unscale source3) =
  predictions (get_true_pred_recurrent stub_model stub_unscale source3_disguised).
Proof.
  apply (predictions_ignore_ground_truth Z stub_model stub_unscale
           window0 [13; 14]%Z [0; 0]%Z (tl source3) (tl source3_disguised)).
  repeat constructor.
Defined.

Lemma window_without_row_raises_witness :
  get_true_pred_recurrent stub_model stub_unscale source_no_row = Raise IndexError.
Proof.
  apply (window_without_row_raises Z stub_model stub_unscale source_no_row 0
           (LoopState window0 [10; 20]%Z [[126; 128]]%Z [[120; 140]]%Z)
           (Matrix 4 []) [17; 18]%Z); reflexivity.
Defined.

Lemma carried_window_well_formed_witness :
  let w := Matrix 4 [[9; 10; 11; 12]; [10; 20; 15; 16]; [11; 30; 19; 20]]%Z in
  ncols w = ncols window0 /\ wf_matrix w /\ [12; 40]%Z = stub_model w.
Proof.
  apply (carried_window_well_formed Z stub_model stub_unscale window0 [13; 14]%Z
           (tl source3) 2
           (LoopState (Matrix 4 [[9; 10; 11; 12]; [10; 20; 15; 16]; [11; 30; 19; 20]]%Z)
                      [12; 40]%Z
                      [[126; 128]; [134; 136]; [142; 144]]%Z
                      [[120; 140]; [122; 160]; [124; 180]]%Z)).
  - repeat constructor.
  - reflexivity.
Defined.

Lemma rollout_failures_witness :
  (IndexError = IndexError /\
   (source_no_row = [] \/ Exists (fun it => rows (fst it) = []) (tl source_no_row))) \/
  IndexError = RuntimeError.
Proof.
  apply (rollout_failures Z stub_model stub_unscale source_no_row IndexError).
  reflexivity.
Defined.

Lemma block_series_of_rollout_witness :
  exists ts ps,
    get_block_temperature_recurrent stub_model stub_unscale source3 2 = Ok (ts, ps) /\
    length ts = 3 /\ length ps = 3 /\
    (forall i x y,
        nth_error source3 i = Some (x, y) ->
        nth_error ts i = nth_error (stub_unscale y) (Z.to_nat (2 - 1))) /\
    (forall i w,
        nth_error (spec_windows stub_model window0 (tl source3)) i = Some w ->
        nth_error ps i = nth_error (stub_unscale (stub_model w)) (Z.to_nat (2 - 1))).
Proof.
  apply (block_series_of_rollout Z stub_model stub_unscale 3 4 window0 [13; 14]%Z
           (tl source3) 2).
  - lia.
  - exact source3_ok.
  - exact stub_model_ok.
  - repeat constructor.
  - intros v; apply length_map.
  - simpl; lia.
Defined.

Example block_series_of_source3 :
  get_block_temperature_recurrent stub_model stub_unscale source3 2 =
  Ok ([128; 136; 144]%Z, [140; 160; 180]%Z).
Proof. reflexivity. Qed.

Lemma block_number_alias_witness :
  extract_block result2 (1 - 2) = extract_block result2 1 /\
  exists series, extract_block result2 1 = Ok series.
Proof.
  apply (block_number_alias Z 2 1 (fst result2) (snd result2)).
  - repeat constructor.
  - repeat constructor.
  - reflexivity.
  - lia.
Defined.

(** The stub training run under a configuration. *)
Definition stub_run (cfg : config nat) (s : option nat) (t : option nat)
  : run pyfloat nat nat unit :=
  train (fun b : nat => b) stub_train_batch stub_eval_batch stub_scheduler_step
        stub_trial_report stub_trial_should_prune cfg 8%float s t.

Definition config_empty_train : config nat :=
  Config (Loader [] 0) (Loader [2; 2] 4) 5 1 true true.

Definition config_zero_freq : config nat :=
  Config (Loader [4; 4; 2] 8) (Loader [2; 2] 4) 5 0 true true.

Definition config_no_epoch : config nat :=
  Config (Loader [4; 4; 2] 8) (Loader [2; 2] 4) (-3) 1 true true.

Lemma empty_train_dataset_raises_witness :
  stub_run config_empty_train (Some 0) (Some 0) =
  Raised ZeroDivisionError (TrainState 8%float (Some 0) (Some 0) [] [] []).
Proof.
  apply (empty_train_dataset_raises nat (fun b : nat => b) pyfloat stub_train_batch
           stub_eval_batch nat stub_scheduler_step nat stub_trial_report
           stub_trial_should_prune config_empty_train 8%float (Some 0) (Some 0)).
  - reflexivity.
  - simpl; lia.
Defined.

Lemma no_epoch_no_effect_witness :
  stub_run config_no_epoch (Some 0) (Some 0) =
  Returned tt (TrainState 8%float (Some 0) (Some 0) [] [] []).
Proof.
  apply (no_epoch_no_effect nat (fun b : nat => b) pyfloat stub_train_batch
           stub_eval_batch nat stub_scheduler_step nat stub_trial_report
           stub_trial_should_prune config_no_epoch 8%float (Some 0) (Some 0)).
  simpl; lia.
Defined.

(** The training run with the recording scheduler and trial. *)
Definition recording_run (cfg : config nat) (s : option (list pyfloat))
           (t : option (list (pyfloat * Z)))
  : run pyfloat (list pyfloat) (list (pyfloat * Z)) unit :=
  train (fun b : nat => b) stub_train_batch stub_eval_batch recording_scheduler_step
        recording_trial_report recording_trial_should_prune cfg 8%float s t.

(** The validation loader gives batches although its dataset has length 0,
    so that the accumulated loss is not 0. *)
Definition config_val_len_zero : config nat :=
  Config (Loader [4; 4; 2] 8) (Loader [2; 2] 0) 5 1 true true.

Lemma empty_val_dataset_raises_witness :
  exists st,
    recording_run config_val_len_zero (Some []) (Some []) =
      Raised ZeroDivisionError st /\
    length (train_losses st) = 1 /\
    val_losses st = [] /\
    ts_trial st = Some [] /\
    trial_reports (ts_log st) = [] /\
    scheduler_metrics (ts_log st) = [4%float] /\
    (ts_net st, ts_scheduler st) = (1%float, Some [4%float]).
Proof.
  refine (empty_val_dataset_raises nat (fun b : nat => b) pyfloat stub_train_batch
            stub_eval_batch (list pyfloat) recording_scheduler_step
            (list (pyfloat * Z)) recording_trial_report recording_trial_should_prune
            config_val_len_zero 8%float (Some []) (Some []) _ _ _).
  - discriminate.
  - reflexivity.
  - simpl; lia.
Defined.

Lemma zero_frequency_raises_witness :
  exists e st,
    stub_run config_zero_freq (Some 0) None = Raised e st /\
    (e = ZeroDivisionError \/ (e = TrialPruned /\ @None nat <> None)) /\
    length (train_losses st) = 1 /\ length (val_losses st) = 1.
Proof.
  apply (zero_frequency_raises nat (fun b : nat => b) pyfloat stub_train_batch
           stub_eval_batch nat stub_scheduler_step nat stub_trial_report
           stub_trial_should_prune config_zero_freq 8%float (Some 0) None).
  - reflexivity.
  - discriminate.
  - discriminate.
  - simpl; lia.
Defined.

Lemma no_trial_no_pruning_witness :
  stub_run config_zero_freq (Some 0) None =
    Raised ZeroDivisionError
           (TrainState 1%float (Some 1) None [6.5%float] [1%float]
                       [SchedulerStep 4%float]) /\
  ZeroDivisionError = ZeroDivisionError.
Proof.
  split; [vm_compute; reflexivity|].
  apply (no_trial_no_pruning nat (fun b : nat => b) pyfloat stub_train_batch
           stub_eval_batch nat stub_scheduler_step nat stub_trial_report
           stub_trial_should_prune config_zero_freq 8%float (Some 0)
           ZeroDivisionError
           (TrainState 1%float (Some 1) None [6.5%float] [1%float]
                       [SchedulerStep 4%float])).
  vm_compute; reflexivity.
Defined.

Lemma train_completes_witness :
  exists st,
    recording_run stub_config (Some []) None = Returned tt st /\
    length (train_losses st) = 5 /\
    length (val_losses st) = 5 /\
    length (scheduler_metrics (ts_log st)) = 5 /\
    (ts_net st, ts_scheduler st) =
      Nat.iter 5 (epoch_effect nat (fun b : nat => b) pyfloat stub_train_batch
                               stub_eval_batch (list pyfloat) recording_scheduler_step
                               stub_config)
               (8%float, Some []).
Proof.
  refine (train_completes nat (fun b : nat => b) pyfloat stub_train_batch
            stub_eval_batch (list pyfloat) recording_scheduler_step
            (list (pyfloat * Z)) recording_trial_report recording_trial_should_prune
            stub_config 8%float (Some []) _ _ _).
  - discriminate.
  - discriminate.
  - discriminate.
Defined.

(** Five epochs: the scheduler holds the five accumulated losses, each 4
    times the recorded mean. *)
Example recording_run_five_epochs :
  match recording_run stub_config (Some []) None with
  | Returned _ st =>
      ts_scheduler st =
        Some [4%float; 0.5%float; 0.0625%float; 0.0078125%float; 0.0009765625%float] /\
      val_losses st =
        [1%float; 0.125%float; 0.015625%float; 0.001953125%float;
         0.000244140625%float]
  | Raised _ _ => False
  end.
Proof. vm_compute. split; reflexivity. Qed.

(** A pruned run: the trial holds the two reports it received. *)
Example recording_run_pruned :
  match recording_run stub_config (Some []) (Some []) with
  | Raised TrialPruned st =>
      ts_trial st = Some [(1%float, 1%Z); (0.125%float, 2%Z)] /\
      ts_scheduler st = Some [4%float; 0.5%float] /\
      val_losses st = [1%float; 0.125%float]
  | _ => False
  end.
Proof. vm_compute. repeat split; reflexivity. Qed.

Lemma scheduler_saw_every_val_loss_witness :
  let st := final_state (recording_run stub_config (Some []) (Some [])) in
  val_losses st =
    map (fun v => (v / float_of_nat 4)%float) (scheduler_metrics (ts_log st)) /\
  (ts_net st, ts_scheduler st) =
    (fst (replay_scheduler nat (fun b : nat => b) pyfloat stub_train_batch
                           (list pyfloat) recording_scheduler_step stub_config
                           (scheduler_metrics (ts_log st)) (8%float, [])),
     Some (snd (replay_scheduler nat (fun b : nat => b) pyfloat stub_train_batch
                                 (list pyfloat) recording_scheduler_step stub_config
                                 (scheduler_metrics (ts_log st)) (8%float, [])))).
Proof.
  refine (scheduler_saw_every_val_loss nat (fun b : nat => b) pyfloat stub_train_batch
            stub_eval_batch (list pyfloat) recording_scheduler_step
            (list (pyfloat * Z)) recording_trial_report recording_trial_should_prune
            stub_config 8%float [] (Some []) _ _).
  - discriminate.
  - discriminate.
Defined.
